(** * DOCX container writer: relationships, content types, metadata, archive

    Shallow embedding of [calibre/ebooks/docx/writer/container.py]
    (Python 2).  The module builds the parts of an Office Open XML package
    with lxml and writes them into a zip archive.

    Conventions of the embedding:
    - Python [unicode]/[str] values are [string]; [None]-able values are
      [option].
    - An lxml element is an [element] (tag in Clark notation, attributes,
      text, children).  What [xml2str] does to a tree (lxml's
      [etree.tostring]) is one of the imported names: properties are
      stated on the tree that is handed to it.
    - A Python 2 [dict] or [set] is kept as the list of its entries in the
      order they were first inserted; every iteration over it goes through
      [iter_order], the interpreter's hash order, about which nothing is
      known except that it enumerates each entry once.
    - A call that can raise returns a [result]; where the object it
      works on is changed in place before the exception, the object as the
      call leaves it is returned next to the result.
    - Names imported from modules that are not part of this file
      ([STYLES], [namespaces], [guess_type], ...) are the fields of the
      class [Externals], over which every definition is parametric. *)

From Stdlib Require Import List String Ascii Arith ZArith Lia Bool Permutation.
From Stdlib Require Import DecimalString DecimalNat Finite.
Import ListNotations.

Set Warnings "-register-all".

Open Scope string_scope.
Open Scope list_scope.

Infix "+s" := String.append (right associativity, at level 60).

(** ** Decidable equality on the key types *)

Class EqDec (A : Type) := eq_dec : forall x y : A, {x = y} + {x <> y}.

#[global] Instance string_EqDec : EqDec string := string_dec.

#[global] Instance option_EqDec {A} `{EqDec A} : EqDec (option A).
Proof. intros x y. unfold EqDec in *. decide equality. Defined.

#[global] Instance prod_EqDec {A B} `{EqDec A} `{EqDec B} : EqDec (A * B).
Proof. intros x y. unfold EqDec in *. decide equality. Defined.

(** ** Python primitives *)

Module Py.

(** ['%d' % n] for a non-negative integer. *)
Definition str_of_nat (n : nat) : string :=
  NilEmpty.string_of_uint (Nat.to_uint n).

Fixpoint zeros (k : nat) : string :=
  match k with
  | 0 => ""
  | S k' => String "0" (zeros k')
  end.

(** ['%0wd' % n]: zero padding on the left up to width [w]. *)
Definition fmt_0d (w n : nat) : string :=
  let s := str_of_nat n in
  zeros (w - String.length s) +s s.

(** [sep.join(l)] *)
Fixpoint join (sep : string) (l : list string) : string :=
  match l with
  | [] => ""
  | [x] => x
  | x :: rest => x +s sep +s join sep rest
  end.

(** Search for the last occurrence of the character [c]: the text before
    it and the text after it. *)
Fixpoint rsplit_chr (c : ascii) (s : string) : option (string * string) :=
  match s with
  | EmptyString => None
  | String a r =>
      match rsplit_chr c r with
      | Some (h, t) => Some (String a h, t)
      | None => if Ascii.eqb a c then Some ("", r) else None
      end
  end.

(** [s.rpartition(c)] for a one-character separator: [(head, sep, tail)],
    and [('', '', s)] when the separator does not occur. *)
Definition rpartition (c : ascii) (s : string) : string * string * string :=
  match rsplit_chr c s with
  | Some (h, t) => (h, String c "", t)
  | None => ("", "", s)
  end.

(** Truth value of a string that may be [None]. *)
Definition truthy (o : option string) : bool :=
  match o with
  | Some (String _ _) => true
  | _ => false
  end.

(** [a or b] on such values. *)
Definition or_ (a b : option string) : option string :=
  if truthy a then a else b.

(** Truth value of a sequence. *)
Definition nonempty {A} (l : list A) : bool :=
  match l with [] => false | _ => true end.

End Py.

(** ** Hash-ordered containers *)

(** The order in which the interpreter enumerates the entries of a dict or
    a set.  It is a function of the container (its entries, in the order
    they were inserted) and visits every entry exactly once. *)
Class HashOrder (A : Type) := {
  iter_order : list A -> list A;
  iter_order_perm : forall l, Permutation (iter_order l) l
}.

Module Dict.
Section Dict.
Context {K V : Type} `{EqDec K}.

Definition dict := list (K * V).

(** [d.get(k)] *)
Fixpoint get (d : dict) (k : K) : option V :=
  match d with
  | [] => None
  | (k', v) :: rest => if eq_dec k' k then Some v else get rest k
  end.

(** [d[k] = v]: overwrite in place, or add a new entry. *)
Fixpoint set (d : dict) (k : K) (v : V) : dict :=
  match d with
  | [] => [(k, v)]
  | (k', v') :: rest =>
      if eq_dec k' k then (k', v) :: rest else (k', v') :: set rest k v
  end.

(** [len(d)] *)
Definition len (d : dict) : nat := List.length d.

(** A dict display [{k1: v1, ...}]. *)
Definition of_list (l : list (K * V)) : dict :=
  fold_left (fun d kv => set d (fst kv) (snd kv)) l [].

(** [d.iteritems()] *)
Definition iteritems `{HashOrder (K * V)} (d : dict) : list (K * V) :=
  iter_order d.

(** [iter(d)] *)
Definition iterkeys `{HashOrder (K * V)} (d : dict) : list K :=
  map fst (iteritems d).

Definition keys (d : dict) : list K := map fst d.

End Dict.
Arguments dict : clear implicits.
End Dict.

(** A [set] of strings: entries in first-insertion order. *)
Module PySet.

Definition mem (x : string) (s : list string) : bool :=
  if in_dec string_dec x s then true else false.

(** [s.add(x)] *)
Definition add (s : list string) (x : string) : list string :=
  if mem x s then s else s ++ [x].

(** A set display [{x1, ...}]. *)
Definition of_list (l : list string) : list string :=
  fold_left add l [].

End PySet.

(** ** lxml elements *)

Inductive element : Type :=
  Element (tag : string) (attrib : list (string * string))
          (text : option string) (children : list element).

Definition tag (e : element) : string :=
  match e with Element t _ _ _ => t end.
Definition attrib (e : element) : list (string * string) :=
  match e with Element _ a _ _ => a end.
Definition text (e : element) : option string :=
  match e with Element _ _ x _ => x end.
Definition children (e : element) : list element :=
  match e with Element _ _ _ c => c end.

(** [root.append(child)] *)
Definition append (root child : element) : element :=
  match root with
  | Element t a x c => Element t a x (c ++ [child])
  end.

(** [e.set(name, value)] *)
Definition set_attr (e : element) (name value : string) : element :=
  match e with
  | Element t a x c => Element t (Dict.set a name value) x c
  end.

(** [e.get(name)] *)
Definition get_attr (e : element) (name : string) : option string :=
  Dict.get (attrib e) name.

(** Clark notation ['{%s}%s' % (uri, name)]. *)
Definition clark (uri name : string) : string :=
  "{" +s uri +s "}" +s name.
Arguments clark : simpl never.

(** The children of [e] whose tag is [t]. *)
Definition find_all (t : string) (e : element) : list element :=
  filter (fun c => String.eqb (tag c) t) (children e).

(** What lxml accepts as the text of an element: a string without NUL byte
    and without control character other than tab, line feed and carriage
    return, that is, of the code points below 256 that a [string] holds,
    all but 0 to 8, 11, 12 and 14 to 31; [e.text = None] is always
    accepted.  Otherwise the assignment raises [ValueError] with the
    message [not_xml]. *)
Definition xml_char (c : ascii) : bool :=
  let n := nat_of_ascii c in
  Nat.eqb n 9 || Nat.eqb n 10 || Nat.eqb n 13 || Nat.leb 32 n.

Fixpoint xml_compatible (s : string) : bool :=
  match s with
  | EmptyString => true
  | String c r => xml_char c && xml_compatible r
  end.

Definition xml_text (o : option string) : bool :=
  match o with
  | None => true
  | Some s => xml_compatible s
  end.

Definition not_xml : string :=
  "All strings must be XML compatible: Unicode or ASCII, no NULL bytes or control characters".

(** [root.remove(child)]: lxml unlinks that very child object.  The object
    is identified by its position among the current children. *)
Fixpoint remove_at (i : nat) (l : list element) : list element :=
  match l, i with
  | [], _ => []
  | _ :: rest, 0 => rest
  | c :: rest, S i' => c :: remove_at i' rest
  end.

(** [for child in tuple(root): if child.tag == t: root.remove(child)].
    [snapshot] is what is left of [tuple(root)], [cur] the current children
    and [pos] the position in [cur] of the head of [snapshot]. *)
Fixpoint remove_tagged (t : string) (snapshot cur : list element) (pos : nat)
  : list element :=
  match snapshot with
  | [] => cur
  | child :: rest =>
      if String.eqb (tag child) t
      then remove_tagged t rest (remove_at pos cur) pos
      else remove_tagged t rest cur (S pos)
  end.

(** ** Exceptions *)

Inductive exn : Type :=
| AttributeError (name : string)
| KeyError (what : string)
| ValueError (what : string)
| ResourceError (fname : string).

Inductive result (A : Type) : Type :=
| Ok (a : A)
| Raise (e : exn).
Arguments Ok {A} a.
Arguments Raise {A} e.

Definition rbind {A B} (r : result A) (k : A -> result B) : result B :=
  match r with
  | Ok a => k a
  | Raise e => Raise e
  end.

(** A [for] loop whose body may raise. *)
Fixpoint rfold {A S} (body : S -> A -> result S) (l : list A) (s : S)
  : result S :=
  match l with
  | [] => Ok s
  | x :: rest => rbind (body s x) (rfold body rest)
  end.

(** ** Records handed over by the collaborators *)

(** Modelled from the spec: the metadata record ([calibre.ebooks.metadata]
    is not part of this file); the fields are the ones read here. *)
Record Metadata : Type := {
  title : string;
  authors : list string;
  tags : list string;
  comments : option string;
  languages : list string;
  publisher : option string
}.

(** A [datetime.datetime] value; [utcoffset] is the offset of its [tzinfo]
    in minutes, [None] for a naive value. *)
Record datetime : Type := {
  year : nat; month : nat; day : nat;
  hour : nat; minute : nat; second : nat; microsecond : nat;
  utcoffset : option Z
}.

(** [datetime.isoformat(sep)] as the standard library documents it:
    [YYYY-MM-DDTHH:MM:SS.mmmmmm], the fraction being left out when
    [microsecond] is 0, followed by [+HH:MM] for an aware value. *)
Definition format_time (hh mm ss us : nat) : string :=
  let s := Py.fmt_0d 2 hh +s ":" +s Py.fmt_0d 2 mm +s ":" +s Py.fmt_0d 2 ss in
  if Nat.eqb us 0 then s else s +s "." +s Py.fmt_0d 6 us.

Definition format_offset (off : Z) : string :=
  let sign := if Z.ltb off 0 then "-" else "+" in
  let m := Z.abs_nat off in
  sign +s Py.fmt_0d 2 (m / 60) +s ":" +s Py.fmt_0d 2 (m mod 60).

Definition isoformat (sep : ascii) (dt : datetime) : string :=
  let s := Py.fmt_0d 4 (year dt) +s "-" +s Py.fmt_0d 2 (month dt) +s "-"
           +s Py.fmt_0d 2 (day dt) +s String sep ""
           +s format_time (hour dt) (minute dt) (second dt) (microsecond dt) in
  match utcoffset dt with
  | None => s
  | Some off => s +s format_offset off
  end.

(** The texts that [update_doc_props] assigns for a record, given the
    author formatter and the two language functions: title, creator,
    keywords, description and language, the last three only when the
    record has them. *)
Definition record_texts (a2s : list string -> string)
           (canon : string -> option string)
           (iso : option string -> option string) (m : Metadata)
  : list (option string) :=
  [Some (title m); Some (a2s (authors m))]
  ++ (if Py.nonempty (tags m) then [Some (Py.join ", " (tags m))] else [])
  ++ (if Py.truthy (comments m) then [comments m] else [])
  ++ (match languages m with
      | [] => []
      | l0 :: _ => [Py.or_ (iso (canon l0)) (canon l0)]
      end).

(** A lazy byte accessor: what calling it gives. *)
Definition getter : Type := result string.

(** The key of a relationship: [(target, rtype, target_mode)]. *)
Definition Key : Type := string * string * option string.

(** ** The imported names *)

Class Externals : Type := {
(** [calibre.ebooks.docx.names] *)
  STYLES : string;
  WEB_SETTINGS : string;
  FONTS : string;
  IMAGES : string;
  namespaces : string -> string;
(** [calibre.guess_type(name)[0]] *)
  guess_type : string -> option string;
(** [calibre.constants] *)
  appname : string;
  numeric_version : nat * nat * nat;
(** [calibre.ebooks.metadata], [calibre.utils.localization] *)
  authors_to_string : list string -> string;
  canonicalize_lang : string -> option string;
  lang_as_iso639_1 : option string -> option string;
(** the book, and [ReadOPF(to_opf2(oeb.metadata)).to_book_metadata()]:
    the record is read back from XML that lxml has serialized, so the
    texts taken from it are texts that lxml accepts *)
  OEBBook : Type;
  to_book_metadata : OEBBook -> Metadata;
  book_metadata_xml :
    forall oeb,
      forallb xml_text
        (record_texts authors_to_string canonicalize_lang lang_as_iso639_1
                      (to_book_metadata oeb)) = true;
(** [etree.tostring] behind [xml2str] *)
  tostring : element -> string;
(** the interpreter's enumeration orders *)
  set_order :: HashOrder string;
  str_dict_order :: HashOrder (string * string);
  rmap_order :: HashOrder (Key * string);
  images_order :: HashOrder (string * getter)
}.

(** ** The module *)

Section Container.
Context `{Ext : Externals}.

Definition xml2str (root : element) : string := tostring root.

(** [ElementMaker(namespace=namespaces[ns])] applied to string-valued
    keyword attributes, a text and child elements: lxml copies the keyword
    dict into the element.  (Its check that a text is XML-compatible is
    not modelled.) *)
Definition E (ns name : string) (kwargs : list (string * string))
           (txt : option string) (kids : list element) : element :=
  Element (clark (namespaces ns) name)
          (fold_left (fun a kv => Dict.set a (fst kv) (snd kv))
                     (Dict.iteritems (Dict.of_list kwargs)) [])
          txt kids.

(** *** update_doc_props *)

(** The root is changed in place: the second component is the root as
    the call leaves it, whether it returns [ans] or raises.  The old
    elements are removed first; [ans.text = text] raises when lxml
    refuses the text, before [ans] is appended. *)
Definition setm (root : element) (name : string) (txt : option string)
           (ns : string) : result element * element :=
  let ans := Element (clark (namespaces ns) name) [] None [] in
  let root :=
    match root with
    | Element t a x c => Element t a x (remove_tagged (tag ans) c c 0)
    end in
  if xml_text txt
  then
    let ans := Element (tag ans) (attrib ans) txt (children ans) in
    (Ok ans, append root ans)
  else (Raise (ValueError not_xml), root).

(** The next statement, unless the call before it raised. *)
Definition and_then {A} (r : result A * element)
           (k : element -> result unit * element) : result unit * element :=
  match r with
  | (Ok _, root) => k root
  | (Raise e, root) => (Raise e, root)
  end.

Definition update_doc_props (root : element) (mi : Metadata)
  : result unit * element :=
  and_then (setm root "title" (Some (title mi)) "dc") (fun root =>
  and_then (setm root "creator" (Some (authors_to_string (authors mi))) "dc")
           (fun root =>
  let languages_ root :=
    match languages mi with
    | [] => (Ok tt, root)
    | l0 :: _ =>
        let l := canonicalize_lang l0 in
        and_then (setm root "language" (Py.or_ (lang_as_iso639_1 l) l) "dc")
                 (fun root => (Ok tt, root))
    end in
  let comments_ root :=
    if Py.truthy (comments mi)
    then and_then (setm root "description" (comments mi) "dc") languages_
    else languages_ root in
  if Py.nonempty (tags mi)
  then and_then (setm root "keywords" (Some (Py.join ", " (tags mi))) "cp")
                comments_
  else comments_ root)).

(** *** DocumentRelationships *)

Record DocumentRelationships : Type := { rmap : Dict.dict Key string }.

Definition rid (n : nat) : string := "rId" +s Py.str_of_nat n.

Definition get_relationship_id (self : DocumentRelationships)
           (target rtype : string) (target_mode : option string)
  : option string :=
  Dict.get (rmap self) (target, rtype, target_mode).

Definition add_relationship (self : DocumentRelationships)
           (target rtype : string) (target_mode : option string)
  : string * DocumentRelationships :=
  match get_relationship_id self target rtype target_mode with
  | Some ans => (ans, self)
  | None =>
      let ans := rid (Dict.len (rmap self) + 1) in
      (ans, {| rmap := Dict.set (rmap self) (target, rtype, target_mode) ans |})
  end.

(** The dict display iterated by [__init__]: type to target. *)
Definition builtin_relationships : list (string * string) :=
  [ (STYLES, "styles.xml");
    (WEB_SETTINGS, "webSettings.xml");
    (FONTS, "fontTable.xml") ].

Definition DocumentRelationships_init : DocumentRelationships :=
  fold_left
    (fun self tt => snd (add_relationship self (snd tt) (fst tt) None))
    (Dict.iteritems (Dict.of_list builtin_relationships))
    {| rmap := [] |}.

Definition add_image (self : DocumentRelationships) (target : string)
  : string * DocumentRelationships :=
  add_relationship self target IMAGES None.

(** The element built by one turn of the loop of [serialize]. *)
Definition relationship_element (item : Key * string) : element :=
  let '((target, rtype, target_mode), rid) := item in
  let r := E "pr" "Relationship"
             [("Id", rid); ("Type", rtype); ("Target", target)] None [] in
  match target_mode with
  | Some m => set_attr r "TargetMode" m
  | None => r
  end.

Definition serialize_root (self : DocumentRelationships) : element :=
  let relationships := E "pr" "Relationships" [] None [] in
  fold_left
    (fun relationships item => append relationships (relationship_element item))
    (Dict.iteritems (rmap self))
    relationships.

Definition serialize (self : DocumentRelationships) : string :=
  xml2str (serialize_root self).

(** A caller's sequence of [add_relationship] calls. *)
Definition add_all (self : DocumentRelationships) (calls : list Key)
  : DocumentRelationships :=
  fold_left
    (fun self k =>
       let '(target, rtype, target_mode) := k in
       snd (add_relationship self target rtype target_mode))
    calls self.

(** *** DOCX *)

(** [opts] and [log] are stored by [__init__] and never read here.
    [images], [document] and [styles] are attributes that the body
    builder assigns later, [mi] is assigned by [convert_metadata]: until
    then they do not exist. *)
Record DOCX : Type := {
  document_relationships : DocumentRelationships;
  font_table : element;
  embedded_fonts : element;
  fonts : Dict.dict string string;
  images : option (Dict.dict string getter);
  document : option element;
  styles : option element;
  mi : option Metadata
}.

Definition DOCX_init : DOCX :=
  {| document_relationships := DocumentRelationships_init;
     font_table := Element (clark (namespaces "w") "fonts") [] None [];
     embedded_fonts := E "pr" "Relationships" [] None [];
     fonts := [];
     images := None;
     document := None;
     styles := None;
     mi := None |}.

(** The archive being written, the assembler, and the accessors called so
    far (by the name of their image). *)
Record world : Type := {
  self : DOCX;
  zf : list (string * string);
  called : list string
}.

Definition M (A : Type) : Type := world -> result A * world.

Definition ret {A} (a : A) : M A := fun w => (Ok a, w).

Definition bind {A B} (m : M A) (k : A -> M B) : M B :=
  fun w =>
    match m w with
    | (Ok a, w') => k a w'
    | (Raise e, w') => (Raise e, w')
    end.

Notation "x <- m ;; k" := (bind m (fun x => k))
  (at level 61, m at next level, right associativity).
Notation "m ;;; k" := (bind m (fun _ => k))
  (at level 61, right associativity).

Definition lift {A} (r : result A) : M A := fun w => (r, w).

(** [self.<name>] *)
Definition getattr {A} (name : string) (field : DOCX -> option A) : M A :=
  fun w =>
    match field (self w) with
    | Some a => (Ok a, w)
    | None => (Raise (AttributeError name), w)
    end.

Definition get_self {A} (field : DOCX -> A) : M A :=
  fun w => (Ok (field (self w)), w).

(** [self.mi = m] *)
Definition set_mi (m : Metadata) : M unit :=
  fun w =>
    let d := self w in
    (Ok tt,
     {| self := {| document_relationships := document_relationships d;
                   font_table := font_table d;
                   embedded_fonts := embedded_fonts d;
                   fonts := fonts d;
                   images := images d;
                   document := document d;
                   styles := styles d;
                   mi := Some m |};
        zf := zf w;
        called := called w |}).

(** [zf.writestr(name, data)] *)
Definition writestr (name data : string) : M unit :=
  fun w =>
    (Ok tt, {| self := self w; zf := zf w ++ [(name, data)]; called := called w |}).

(** [data_getter()] for the image [fname] *)
Definition call_getter (fname : string) (g : getter) : M string :=
  fun w =>
    (g, {| self := self w; zf := zf w; called := called w ++ [fname] |}).

Fixpoint for_each {A} (l : list A) (body : A -> M unit) : M unit :=
  match l with
  | [] => ret tt
  | x :: rest => body x ;;; for_each rest body
  end.

(** **** contenttypes *)

Definition override_parts : list (string * string) :=
  [ ("/word/footnotes.xml", "application/vnd.openxmlformats-officedocument.wordprocessingml.footnotes+xml");
    ("/word/document.xml", "application/vnd.openxmlformats-officedocument.wordprocessingml.document.main+xml");
    ("/word/numbering.xml", "application/vnd.openxmlformats-officedocument.wordprocessingml.numbering+xml");
    ("/word/styles.xml", "application/vnd.openxmlformats-officedocument.wordprocessingml.styles+xml");
    ("/word/endnotes.xml", "application/vnd.openxmlformats-officedocument.wordprocessingml.endnotes+xml");
    ("/word/settings.xml", "application/vnd.openxmlformats-officedocument.wordprocessingml.settings+xml");
    ("/word/theme/theme1.xml", "application/vnd.openxmlformats-officedocument.theme+xml");
    ("/word/fontTable.xml", "application/vnd.openxmlformats-officedocument.wordprocessingml.fontTable+xml");
    ("/word/webSettings.xml", "application/vnd.openxmlformats-officedocument.wordprocessingml.webSettings+xml");
    ("/docProps/core.xml", "application/vnd.openxmlformats-package.core-properties+xml");
    ("/docProps/app.xml", "application/vnd.openxmlformats-officedocument.extended-properties+xml") ].

Definition looked_up_extensions : list string :=
  ["png"; "gif"; "jpeg"; "jpg"; "svg"; "xml"].

Definition fixed_defaults : list (string * string) :=
  [ ("rels", "application/vnd.openxmlformats-package.relationships+xml");
    ("odttf", "application/vnd.openxmlformats-officedocument.obfuscatedFont") ].

Definition E_Default (ext mt : string) : element :=
  E "ct" "Default" [("Extension", ext); ("ContentType", mt)] None [].

(** [os.extsep] *)
Definition extsep : ascii := ".".

(** The loops before [self.images] is read: the overrides, the six
    looked-up types and the two hard-coded ones; the state is
    [(types, added)].  In the first [Default] loop the looked-up type goes
    into the element unchecked; lxml's builder has no handler for a [None]
    attribute value and raises. *)
Definition declare_fixed : result (element * list string) :=
  let types := E "ct" "Types" [] None [] in
  let types :=
    fold_left
      (fun types pm =>
         append types (E "ct" "Override"
                         [("PartName", fst pm); ("ContentType", snd pm)] None []))
      (Dict.iteritems (Dict.of_list override_parts)) types in
  let added := PySet.of_list looked_up_extensions in
  rbind
    (rfold
       (fun types ext =>
          match guess_type ("a." +s ext) with
          | Some mt => Ok (append types (E_Default ext mt))
          | None => Raise (KeyError "NoneType")
          end)
       (iter_order added) types)
    (fun types =>
       Ok (fold_left
             (fun st em =>
                let '(types, added) := st in
                let added := PySet.add added (fst em) in
                (append types (E_Default (fst em) (snd em)), added))
             (Dict.iteritems (Dict.of_list fixed_defaults)) (types, added))).

(** [for fname in self.images: ...], for the names it enumerates. *)
Definition declare_resources (fnames : list string)
           (st : element * list string) : element * list string :=
  fold_left
    (fun st fname =>
       let '(types, added) := st in
       let ext := snd (Py.rpartition extsep fname) in
       if PySet.mem ext added then (types, added)
       else
         let added := PySet.add added ext in
         match guess_type ("a." +s ext) with
         | Some (String _ _ as mt) =>
             (append types (E_Default ext mt), added)
         | _ => (types, added)
         end)
    fnames st.

(** The tree handed to [xml2str] when the resources are [fnames]. *)
Definition contenttypes_root (fnames : list string) : result element :=
  rbind declare_fixed (fun st => Ok (fst (declare_resources fnames st))).

Definition contenttypes : M string :=
  st <- lift declare_fixed ;;
  imgs <- getattr "images" images ;;
  ret (xml2str (fst (declare_resources (Dict.iterkeys imgs) st))).

(** **** appproperties *)

Definition app_version : string :=
  let '(major, minor, _) := numeric_version in
  Py.fmt_0d 2 major +s "." +s Py.fmt_0d 4 minor.

Definition appproperties_base : element :=
  E "ep" "Properties" [] None
    [ E "ep" "Application" [] (Some appname) [];
      E "ep" "AppVersion" [] (Some app_version) [];
      E "ep" "DocSecurity" [] (Some "0") [];
      E "ep" "HyperlinksChanged" [] (Some "false") [];
      E "ep" "LinksUpToDate" [] (Some "true") [];
      E "ep" "ScaleCrop" [] (Some "false") [];
      E "ep" "SharedDoc" [] (Some "false") [] ].

Definition appproperties_root (m : Metadata) : element :=
  let props := appproperties_base in
  if Py.truthy (publisher m)
  then append props (E "ep" "Company" [] (publisher m) [])
  else props.

Definition appproperties : M string :=
  m <- getattr "mi" mi ;;
  ret (xml2str (appproperties_root m)).

(** **** containerrels, websettings *)

Definition dq : string := String (ascii_of_nat 34) "".
Definition nl : string := String (ascii_of_nat 10) "".

Definition containerrels_line (id typ target : string) : string :=
  "    <Relationship Id=" +s dq +s id +s dq +s " Type=" +s dq +s typ +s dq
  +s " Target=" +s dq +s target +s dq +s "/>" +s nl.

Definition containerrels : string :=
  "<?xml version='1.0' encoding='utf-8'?>" +s nl
  +s "<Relationships xmlns=" +s dq
  +s "http://schemas.openxmlformats.org/package/2006/relationships" +s dq +s ">" +s nl
  +s containerrels_line "rId3"
       "http://schemas.openxmlformats.org/officeDocument/2006/relationships/extended-properties"
       "docProps/app.xml"
  +s containerrels_line "rId2"
       "http://schemas.openxmlformats.org/package/2006/relationships/metadata/core-properties"
       "docProps/core.xml"
  +s containerrels_line "rId1"
       "http://schemas.openxmlformats.org/officeDocument/2006/relationships/officeDocument"
       "word/document.xml"
  +s "</Relationships>".

Definition websettings_root : element :=
  E "w" "webSettings" [] None
    [ E "w" "optimizeForBrowser" [] None [];
      E "w" "allowPNG" [] None [];
      E "w" "doNotSaveAsSingleFile" [] None [] ].

Definition websettings : string := xml2str websettings_root.

(** **** convert_metadata *)

(** [utcnow().isoformat(str('T')).rpartition('.')[0] + 'Z'] *)
Definition timestamp (now : datetime) : string :=
  fst (fst (Py.rpartition "." (isoformat "T" now))) +s "Z".

(** The tree before [update_doc_props] is called on it. *)
Definition core_properties_base (now : datetime) : element :=
  let cp := E "cp" "coreProperties" [] None
              [ E "cp" "revision" [] (Some "1") [];
                E "cp" "lastModifiedBy" [] (Some "calibre") [] ] in
  let ts := timestamp now in
  fold_left
    (fun cp x =>
       let x := Element (clark (namespaces "dcterms") x)
                  [(clark (namespaces "xsi") "type", "dcterms:W3CDTF")]
                  None [] in
       let x := Element (tag x) (attrib x) (Some ts) (children x) in
       append cp x)
    ["created"; "modified"] cp.

(** The tree [cp] as [update_doc_props(cp, self.mi)] leaves it. *)
Definition convert_metadata_root (now : datetime) (m : Metadata) : element :=
  snd (update_doc_props (core_properties_base now) m).

(** [now] is what [utcnow()] returns during the call. *)
Definition convert_metadata (now : datetime) (oeb : OEBBook) : M string :=
  let m := to_book_metadata oeb in
  set_mi m ;;;
  lift (fst (update_doc_props (core_properties_base now) m)) ;;;
  ret (xml2str (convert_metadata_root now m)).

(** **** write *)

Definition write (now : datetime) (oeb : OEBBook) : M unit :=
  (data <- contenttypes ;; writestr "[Content_Types].xml" data) ;;;
  writestr "_rels/.rels" containerrels ;;;
  (data <- convert_metadata now oeb ;; writestr "docProps/core.xml" data) ;;;
  (data <- appproperties ;; writestr "docProps/app.xml" data) ;;;
  writestr "word/webSettings.xml" websettings ;;;
  (doc <- getattr "document" document ;;
   writestr "word/document.xml" (xml2str doc)) ;;;
  (sty <- getattr "styles" styles ;;
   writestr "word/styles.xml" (xml2str sty)) ;;;
  (ft <- get_self font_table ;; writestr "word/fontTable.xml" (xml2str ft)) ;;;
  (rels <- get_self document_relationships ;;
   writestr "word/_rels/document.xml.rels" (serialize rels)) ;;;
  (ef <- get_self embedded_fonts ;;
   writestr "word/_rels/fontTable.xml.rels" (xml2str ef)) ;;;
  (imgs <- getattr "images" images ;;
   for_each (Dict.iteritems imgs)
     (fun item => data <- call_getter (fst item) (snd item) ;;
                  writestr (fst item) data)) ;;;
  (fnts <- get_self fonts ;;
   for_each (Dict.iteritems fnts)
     (fun item => writestr (fst item) (snd item))).

(** A call of [write] on the assembler [d] with a fresh archive. *)
Definition run_write (d : DOCX) (now : datetime) (oeb : OEBBook)
  : result unit * world :=
  write now oeb {| self := d; zf := []; called := [] |}.

End Container.

(** ** Reference environments

    Concrete values for the imported names, used to run the definitions.
    The namespace table and the relationship types are the ones of the
    Office Open XML schemas; the type lookup knows the usual image types
    and XML, nothing else. *)

(** Two enumeration orders: entries as inserted, and entries reversed. *)
Definition insertion_order (A : Type) : HashOrder A :=
  {| iter_order := fun l => l;
     iter_order_perm := @Permutation_refl A |}.

Definition reversed_order (A : Type) : HashOrder A :=
  {| iter_order := @rev A;
     iter_order_perm := fun l => Permutation_sym (Permutation_rev l) |}.

Definition ref_namespaces (prefix : string) : string :=
  if prefix =? "pr" then "http://schemas.openxmlformats.org/package/2006/relationships"
  else if prefix =? "ct" then "http://schemas.openxmlformats.org/package/2006/content-types"
  else if prefix =? "ep" then "http://schemas.openxmlformats.org/officeDocument/2006/extended-properties"
  else if prefix =? "cp" then "http://schemas.openxmlformats.org/package/2006/metadata/core-properties"
  else if prefix =? "dc" then "http://purl.org/dc/elements/1.1/"
  else if prefix =? "dcterms" then "http://purl.org/dc/terms/"
  else if prefix =? "xsi" then "http://www.w3.org/2001/XMLSchema-instance"
  else if prefix =? "w" then "http://schemas.openxmlformats.org/wordprocessingml/2006/main"
  else "http://schemas.openxmlformats.org/officeDocument/2006/relationships".

Definition ref_guess_type (name : string) : option string :=
  let ext := snd (Py.rpartition "." name) in
  if ext =? "png" then Some "image/png"
  else if ext =? "gif" then Some "image/gif"
  else if ext =? "jpeg" then Some "image/jpeg"
  else if ext =? "jpg" then Some "image/jpeg"
  else if ext =? "svg" then Some "image/svg+xml"
  else if ext =? "xml" then Some "application/xml"
  else None.

(** A plain rendering of a tree, standing in for lxml's serializer. *)
Fixpoint ref_tostring (e : element) : string :=
  match e with
  | Element t a x c =>
      "<" +s t
      +s fold_right (fun kv acc => " " +s fst kv +s "='" +s snd kv +s "'" +s acc) "" a
      +s ">"
      +s match x with Some s => s | None => "" end
      +s (fix all (l : list element) : string :=
            match l with
            | [] => ""
            | k :: rest => ref_tostring k +s all rest
            end) c
      +s "</" +s t +s ">"
  end.

Definition ref_canonicalize_lang (s : string) : option string :=
  if s =? "en" then Some "eng" else None.

Definition ref_lang_as_iso639_1 (o : option string) : option string :=
  match o with
  | Some "eng" => Some "en"
  | _ => None
  end.

(** A reader of records that drops the characters XML cannot hold. *)
Fixpoint scrub_string (s : string) : string :=
  match s with
  | EmptyString => EmptyString
  | String c r =>
      if xml_char c then String c (scrub_string r) else scrub_string r
  end.

Definition scrub (m : Metadata) : Metadata :=
  {| title := scrub_string (title m);
     authors := map scrub_string (authors m);
     tags := map scrub_string (tags m);
     comments := option_map scrub_string (comments m);
     languages := map scrub_string (languages m);
     publisher := option_map scrub_string (publisher m) |}.

Lemma xml_scrub_string s : xml_compatible (scrub_string s) = true.
Proof.
  induction s as [|c s IH]; simpl; [reflexivity|].
  destruct (xml_char c) eqn:Hc; simpl; [now rewrite Hc | exact IH].
Qed.

Lemma xml_append a b :
  xml_compatible (a +s b) = xml_compatible a && xml_compatible b.
Proof.
  induction a as [|c a IH]; simpl; [reflexivity|].
  now rewrite IH, andb_assoc.
Qed.

Lemma xml_join sep l :
  xml_compatible sep = true ->
  forallb xml_compatible l = true ->
  xml_compatible (Py.join sep l) = true.
Proof.
  intros Hsep. induction l as [|x l IH]; [reflexivity|].
  intros H. cbn [forallb] in H. apply andb_prop in H. destruct H as [Hx Hl].
  destruct l as [|y l]; [exact Hx|].
  change (Py.join sep (x :: y :: l)) with (x +s sep +s Py.join sep (y :: l)).
  now rewrite !xml_append, Hx, Hsep, IH.
Qed.

Lemma xml_scrub_list l : forallb xml_compatible (map scrub_string l) = true.
Proof.
  induction l as [|x l IH]; simpl; [reflexivity|].
  now rewrite xml_scrub_string, IH.
Qed.

(** The texts of a scrubbed record are accepted, for formatters that make
    accepted texts of accepted names and codes. *)
Lemma scrubbed_record_texts a2s canon iso :
  (forall l, forallb xml_compatible l = true -> xml_compatible (a2s l) = true) ->
  (forall s, xml_compatible s = true ->
             xml_text (Py.or_ (iso (canon s)) (canon s)) = true) ->
  forall m, forallb xml_text (record_texts a2s canon iso (scrub m)) = true.
Proof.
  intros Ha Hl m. unfold record_texts, scrub. cbn [title authors tags comments languages].
  cbn [app forallb xml_text]. rewrite xml_scrub_string, Ha by apply xml_scrub_list.
  cbn [andb]. rewrite !forallb_app.
  apply andb_true_intro. split; [|apply andb_true_intro; split].
  - destruct (Py.nonempty _); [|reflexivity].
    cbn [forallb xml_text]. rewrite xml_join; [reflexivity | reflexivity |].
    apply xml_scrub_list.
  - destruct (comments m) as [c|]; cbn [option_map Py.truthy]; [|reflexivity].
    destruct (scrub_string c) eqn:Hc; [reflexivity|].
    cbn [forallb xml_text]. rewrite <- Hc, xml_scrub_string. reflexivity.
  - destruct (languages m) as [|l0 ls]; cbn [map]; [reflexivity|].
    cbn [forallb]. rewrite Hl by apply xml_scrub_string. reflexivity.
Qed.

Lemma ref_record_texts :
  forall m, forallb xml_text
              (record_texts (Py.join " & ") ref_canonicalize_lang
                            ref_lang_as_iso639_1 (scrub m)) = true.
Proof.
  apply scrubbed_record_texts.
  - intros l. now apply xml_join.
  - intros s _. unfold ref_canonicalize_lang.
    destruct (s =? "en"); reflexivity.
Qed.

Lemma verbatim_record_texts :
  forall m, forallb xml_text
              (record_texts (Py.join " & ") (fun s => Some s) (fun o => o)
                            (scrub m)) = true.
Proof.
  apply scrubbed_record_texts.
  - intros l. now apply xml_join.
  - intros s Hs. unfold Py.or_. now destruct (Py.truthy (Some s)).
Qed.

Definition ref_env (order : forall A, HashOrder A) : Externals :=
  {| STYLES := "http://schemas.openxmlformats.org/officeDocument/2006/relationships/styles";
     WEB_SETTINGS := "http://schemas.openxmlformats.org/officeDocument/2006/relationships/webSettings";
     FONTS := "http://schemas.openxmlformats.org/officeDocument/2006/relationships/fontTable";
     IMAGES := "http://schemas.openxmlformats.org/officeDocument/2006/relationships/image";
     namespaces := ref_namespaces;
     guess_type := ref_guess_type;
     appname := "calibre";
     numeric_version := (1, 15, 0);
     authors_to_string := Py.join " & ";
     canonicalize_lang := ref_canonicalize_lang;
     lang_as_iso639_1 := ref_lang_as_iso639_1;
     OEBBook := Metadata;
     to_book_metadata := scrub;
     book_metadata_xml := ref_record_texts;
     tostring := ref_tostring;
     set_order := order string;
     str_dict_order := order (string * string)%type;
     rmap_order := order (Key * string)%type;
     images_order := order (string * getter)%type |}.

Definition env_fifo : Externals := ref_env insertion_order.
Definition env_lifo : Externals := ref_env reversed_order.

(** A lookup that also knows TIFF images. *)
Definition tiff_env : Externals :=
  {| STYLES := @STYLES env_fifo; WEB_SETTINGS := @WEB_SETTINGS env_fifo;
     FONTS := @FONTS env_fifo; IMAGES := @IMAGES env_fifo;
     namespaces := ref_namespaces;
     guess_type := fun name =>
                     if snd (Py.rpartition "." name) =? "tiff"
                     then Some "image/tiff" else ref_guess_type name;
     appname := "calibre"; numeric_version := (1, 15, 0);
     authors_to_string := Py.join " & ";
     canonicalize_lang := fun s => Some s;
     lang_as_iso639_1 := fun o => o;
     OEBBook := Metadata; to_book_metadata := scrub;
     book_metadata_xml := verbatim_record_texts;
     tostring := ref_tostring;
     set_order := reversed_order string;
     str_dict_order := reversed_order (string * string)%type;
     rmap_order := reversed_order (Key * string)%type;
     images_order := reversed_order (string * getter)%type |}.

(** Noon sharp, in UTC. *)
Definition noon_sharp : datetime :=
  {| year := 2013; month := 6; day := 1;
     hour := 12; minute := 0; second := 0; microsecond := 0;
     utcoffset := Some 0%Z |}.

Definition sample_record : Metadata :=
  {| title := "Sample"; authors := ["A. Author"]; tags := [];
     comments := None; languages := ["en"]; publisher := None |}.


(** A record whose publisher is the empty string. *)
Definition unnamed_publisher : Metadata :=
  {| title := "Sample"; authors := ["A. Author"]; tags := [];
     comments := None; languages := ["en"]; publisher := Some "" |}.

Definition named_publisher : Metadata :=
  {| title := "Sample"; authors := ["A. Author"]; tags := ["fiction"];
     comments := Some "A sample."; languages := ["en"];
     publisher := Some "Acme Press" |}.

(** An assembler after the body builder has run: two images, one font. *)
Definition sample_images : Dict.dict string getter :=
  [ ("word/media/cover.png", Ok "PNG-BYTES");
    ("word/media/back.jpg", Ok "JPG-BYTES") ].

Definition sample_docx : DOCX :=
  {| document_relationships :=
       snd (@add_image env_fifo (@DocumentRelationships_init env_fifo) "media/cover.png");
     font_table := Element "fonts" [] None [];
     embedded_fonts := Element "Relationships" [] None [];
     fonts := [("word/fonts/font1.odttf", "FONT-BYTES")];
     images := Some sample_images;
     document := Some (Element "document" [] None []);
     styles := Some (Element "styles" [] None []);
     mi := None |}.

(** An assembler whose second image cannot be read. *)
Definition failing_docx : DOCX :=
  {| document_relationships := document_relationships sample_docx;
     font_table := font_table sample_docx;
     embedded_fonts := embedded_fonts sample_docx;
     fonts := fonts sample_docx;
     images := Some [ ("a.png", Ok "A");
                      ("b.png", Raise (ResourceError "b.png"));
                      ("c.png", Ok "C") ];
     document := document sample_docx;
     styles := styles sample_docx;
     mi := None |}.

(** ** Vocabulary of the statements *)

(** What a [Relationship] element says: target, type and target mode. *)
Definition rel_view : Type := option string * option string * option string.

Definition rel_key (e : element) : rel_view :=
  (get_attr e "Target", get_attr e "Type", get_attr e "TargetMode").

Definition key_view (k : Key) : rel_view :=
  let '(target, rtype, target_mode) := k in
  (Some target, Some rtype, target_mode).


Definition get_id (self : DocumentRelationships) (k : Key) : option string :=
  let '(target, rtype, target_mode) := k in
  get_relationship_id self target rtype target_mode.

Definition add_key (self : DocumentRelationships) (k : Key)
  : string * DocumentRelationships :=
  let '(target, rtype, target_mode) := k in
  add_relationship self target rtype target_mode.

(** The invariant of a registry: keys are pairwise distinct and the entry
    inserted in [i]-th place holds [rId<i>]. *)
Definition rmap_ok (d : Dict.dict Key string) : Prop :=
  NoDup (Dict.keys d) /\ map snd d = map rid (seq 1 (List.length d)).

(** The keys registered by [__init__]. *)
Definition builtin_keys `{Externals} : list Key :=
  [ ("styles.xml", STYLES, None);
    ("webSettings.xml", WEB_SETTINGS, None);
    ("fontTable.xml", FONTS, None) ].

(** The qualified names that [update_doc_props] sets for the record [m]. *)
Definition properties_set `{Externals} (m : Metadata) : list string :=
  [clark (namespaces "dc") "title"; clark (namespaces "dc") "creator"]
  ++ (if Py.nonempty (tags m) then [clark (namespaces "cp") "keywords"] else [])
  ++ (if Py.truthy (comments m) then [clark (namespaces "dc") "description"] else [])
  ++ (if Py.nonempty (languages m) then [clark (namespaces "dc") "language"] else []).

Definition sets_property `{Externals} (t : string) (m : Metadata) : bool :=
  existsb (String.eqb t) (properties_set m).

(** The last character of a string. *)
Fixpoint last_chr (s : string) : option ascii :=
  match s with
  | EmptyString => None
  | String a EmptyString => Some a
  | String _ r => last_chr r
  end.

(** What the [Default] elements of a manifest declare: extension and
    content type, as the attributes have them. *)
Definition default_entries `{Externals} (root : element)
  : list (option string * option string) :=
  map (fun c => (get_attr c "Extension", get_attr c "ContentType"))
      (find_all (clark (namespaces "ct") "Default") root).

Definition default_exts `{Externals} (root : element) : list (option string) :=
  map fst (default_entries root).

(** The type lookup finds a type for each extension of the first
    [Default] loop. *)
Definition fixed_types_known `{Externals} : Prop :=
  forall ext, In ext looked_up_extensions ->
              guess_type ("a." +s ext) <> None.

(** ... and that type is not the empty string. *)
Definition fixed_types_nonempty `{Externals} : Prop :=
  forall ext, In ext looked_up_extensions ->
              Py.truthy (guess_type ("a." +s ext)) = true.

(** The type found for an extension ([""] when there is none). *)
Definition type_of_ext `{Externals} (ext : string) : string :=
  match guess_type ("a." +s ext) with
  | Some mt => mt
  | None => ""
  end.

(** The elements appended by the loops of [contenttypes]. *)
Definition default_of `{Externals} (en : string * string) : element :=
  E_Default (fst en) (snd en).

Definition override_of `{Externals} (pm : string * string) : element :=
  E "ct" "Override" [("PartName", fst pm); ("ContentType", snd pm)] None [].

(** The date element that [convert_metadata] appends for the name [x]. *)
Definition date_element `{Externals} (now : datetime) (x : string) : element :=
  Element (clark (namespaces "dcterms") x)
          [(clark (namespaces "xsi") "type", "dcterms:W3CDTF")]
          (Some (timestamp now)) [].

(** The instant to the second: [YYYY-MM-DDTHH:MM:SS]. *)
Definition to_the_second (now : datetime) : string :=
  Py.fmt_0d 4 (year now) +s "-" +s Py.fmt_0d 2 (month now) +s "-"
  +s Py.fmt_0d 2 (day now) +s "T"
  +s Py.fmt_0d 2 (hour now) +s ":" +s Py.fmt_0d 2 (minute now) +s ":"
  +s Py.fmt_0d 2 (second now).

(** The tag and the text of each child. *)
Definition outline (e : element) : list (string * option string) :=
  map (fun c => (tag c, text c)) (children e).

(** The bytes that an accessor gives ([""] for one that raises). *)
Definition getter_data (g : getter) : string :=
  match g with
  | Ok data => data
  | Raise _ => ""
  end.

(** The first four entries of the archive. *)
Definition leading_parts `{Externals} (now : datetime) (oeb : OEBBook)
           (types : element) : list (string * string) :=
  [ ("[Content_Types].xml", xml2str types);
    ("_rels/.rels", containerrels);
    ("docProps/core.xml",
      xml2str (convert_metadata_root now (to_book_metadata oeb)));
    ("docProps/app.xml",
      xml2str (appproperties_root (to_book_metadata oeb))) ].

(** The six entries after them. *)
Definition word_parts `{Externals} (d : DOCX) (doc sty : element)
  : list (string * string) :=
  [ ("word/webSettings.xml", websettings);
    ("word/document.xml", xml2str doc);
    ("word/styles.xml", xml2str sty);
    ("word/fontTable.xml", xml2str (font_table d));
    ("word/_rels/document.xml.rels", serialize (document_relationships d));
    ("word/_rels/fontTable.xml.rels", xml2str (embedded_fonts d)) ].

(** The names of the ten fixed entries, in the order of writing. *)
Definition fixed_names : list string :=
  [ "[Content_Types].xml"; "_rels/.rels"; "docProps/core.xml";
    "docProps/app.xml"; "word/webSettings.xml"; "word/document.xml";
    "word/styles.xml"; "word/fontTable.xml";
    "word/_rels/document.xml.rels"; "word/_rels/fontTable.xml.rels" ].

(** An action that only ever adds entries at the end of the archive. *)
Definition appends_only `{Externals} {A} (m : M A) : Prop :=
  forall w, exists rest, zf (snd (m w)) = zf w ++ rest.


(** The last [k] characters of a string (the whole string when it is
    shorter). *)
Fixpoint last_n (k : nat) (s : string) : string :=
  match s with
  | EmptyString => EmptyString
  | String c r => if Nat.leb k (String.length r) then last_n k r else s
  end.

(** The calls of [setm] that [update_doc_props] makes for the record [m],
    in their order: name, text and namespace key. *)
Definition property_steps `{Externals} (m : Metadata)
  : list (string * option string * string) :=
  [ ("title", Some (title m), "dc");
    ("creator", Some (authors_to_string (authors m)), "dc") ]
  ++ (if Py.nonempty (tags m)
      then [("keywords", Some (Py.join ", " (tags m)), "cp")] else [])
  ++ (if Py.truthy (comments m)
      then [("description", comments m, "dc")] else [])
  ++ (match languages m with
      | [] => []
      | l0 :: _ =>
          [("language",
            Py.or_ (lang_as_iso639_1 (canonicalize_lang l0))
                   (canonicalize_lang l0), "dc")]
      end).

Definition step_tag `{Externals} (st : string * option string * string) : string :=
  let '(name, _, ns) := st in clark (namespaces ns) name.

Definition step_element `{Externals} (st : string * option string * string)
  : element :=
  let '(name, txt, ns) := st in Element (clark (namespaces ns) name) [] txt [].

Definition step_text (st : string * option string * string) : option string :=
  snd (fst st).

(** A sequence of [setm] calls, up to the first that raises. *)
Fixpoint apply_steps `{Externals} (root : element)
         (steps : list (string * option string * string))
  : result unit * element :=
  match steps with
  | [] => (Ok tt, root)
  | (name, txt, ns) :: rest =>
      match setm root name txt ns with
      | (Ok _, root) => apply_steps root rest
      | (Raise e, root) => (Raise e, root)
      end
  end.

(** The calls whose text lxml accepts, up to the first refusal, and the
    calls that are made at all: the former and the refused one. *)
Fixpoint accepted (steps : list (string * option string * string))
  : list (string * option string * string) :=
  match steps with
  | [] => []
  | st :: rest => if xml_text (step_text st) then st :: accepted rest else []
  end.

Fixpoint attempted (steps : list (string * option string * string))
  : list (string * option string * string) :=
  match steps with
  | [] => []
  | st :: rest => if xml_text (step_text st) then st :: attempted rest else [st]
  end.

(** The elements that [update_doc_props] appends for the record [m], and
    the qualified names that it sets or tries to set. *)
Definition new_elements `{Externals} (m : Metadata) : list element :=
  map step_element (accepted (property_steps m)).

Definition properties_attempted `{Externals} (m : Metadata) : list string :=
  map step_tag (attempted (property_steps m)).

(** Whether lxml accepts every text of the record. *)
Definition record_accepted `{Externals} (m : Metadata) : bool :=
  forallb xml_text (map step_text (property_steps m)).


(** The children that are not of a name in [ts]. *)
Definition others (ts : list string) (l : list element) : list element :=
  filter (fun c => negb (existsb (String.eqb (tag c)) ts)) l.

(** What the [Override] elements of a manifest declare. *)
Definition override_entries `{Externals} (root : element)
  : list (option string * option string) :=
  map (fun c => (get_attr c "PartName", get_attr c "ContentType"))
      (find_all (clark (namespaces "ct") "Override") root).

(** The extension that [contenttypes] computes for a resource name. *)
Definition extension_of (fname : string) : string :=
  snd (Py.rpartition extsep fname).

(** * Facts *)

(** ** Dicts *)

Module DictFacts.
Section DictFacts.
Context {K V : Type} `{EqDec K}.
Implicit Types (d : Dict.dict K V) (k : K) (v : V).

Lemma get_None_notin d k : Dict.get d k = None <-> ~ In k (Dict.keys d).
Proof.
  induction d as [|[k' v] d IH]; simpl.
  - tauto.
  - destruct (eq_dec k' k) as [->|Hne].
    + split; [discriminate | intros Hn; exfalso; apply Hn; now left].
    + rewrite IH. split.
      * intros Hn [E|Hin]; [now apply Hne | now apply Hn].
      * intros Hn Hin. apply Hn. now right.
Qed.

Lemma get_Some_in d k v : Dict.get d k = Some v -> In (k, v) d.
Proof.
  induction d as [|[k' v'] d IH]; simpl; [discriminate|].
  destruct (eq_dec k' k) as [->|Hne].
  - intros [= ->]. now left.
  - intros Hg. right. now apply IH.
Qed.

Lemma in_keys d k v : In (k, v) d -> In k (Dict.keys d).
Proof. intros Hin. change k with (fst (k, v)). now apply in_map. Qed.

Lemma in_get_Some d k v :
  NoDup (Dict.keys d) -> In (k, v) d -> Dict.get d k = Some v.
Proof.
  induction d as [|[k' v'] d IH]; simpl; [tauto|].
  intros Hnd [E|Hin].
  - injection E as -> ->. destruct (eq_dec k k); congruence.
  - inversion Hnd as [|? ? Hnotin Hnd']; subst.
    destruct (eq_dec k' k) as [->|Hne].
    + exfalso. apply Hnotin. now apply in_keys with v.
    + now apply IH.
Qed.

Lemma set_fresh d k v : Dict.get d k = None -> Dict.set d k v = d ++ [(k, v)].
Proof.
  induction d as [|[k' v'] d IH]; simpl; [reflexivity|].
  destruct (eq_dec k' k); [discriminate|].
  intros Hg. now rewrite IH.
Qed.

Lemma get_app d1 d2 k :
  Dict.get (d1 ++ d2) k =
  match Dict.get d1 k with Some v => Some v | None => Dict.get d2 k end.
Proof.
  induction d1 as [|[k' v'] d1 IH]; simpl; [reflexivity|].
  now destruct (eq_dec k' k).
Qed.

Lemma get_set d k v k' :
  Dict.get (Dict.set d k v) k' =
  if eq_dec k k' then Some v else Dict.get d k'.
Proof.
  induction d as [|[k0 v0] d IH]; simpl.
  - reflexivity.
  - destruct (eq_dec k0 k) as [->|Hne]; simpl.
    + destruct (eq_dec k k'); reflexivity.
    + rewrite IH. destruct (eq_dec k0 k') as [->|Hne'].
      * destruct (eq_dec k k'); congruence.
      * reflexivity.
Qed.

Lemma get_keys_values d :
  NoDup (Dict.keys d) -> map (Dict.get d) (Dict.keys d) = map Some (map snd d).
Proof.
  intros Hnd. unfold Dict.keys. rewrite !map_map.
  apply map_ext_in. intros [k v] Hin. simpl. now apply in_get_Some.
Qed.

(** Filling a dict with entries of pairwise distinct new keys appends
    them in turn. *)
Lemma fold_set_fresh (l : list (K * V)) : forall d,
  NoDup (Dict.keys (d ++ l)) ->
  fold_left (fun d kv => Dict.set d (fst kv) (snd kv)) l d = d ++ l.
Proof.
  induction l as [|[k v] l IH]; intros d Hnd; simpl.
  - now rewrite app_nil_r.
  - assert (Hfresh : Dict.get d k = None).
    { apply get_None_notin. unfold Dict.keys in *.
      rewrite map_app in Hnd. simpl in Hnd.
      apply NoDup_remove_2 in Hnd. intros Hin. apply Hnd.
      apply in_or_app. now left. }
    rewrite set_fresh by exact Hfresh.
    rewrite IH; rewrite <- app_assoc; [reflexivity | exact Hnd].
Qed.

Lemma of_list_nodup (l : list (K * V)) :
  NoDup (Dict.keys l) -> Dict.of_list l = l.
Proof. intros Hnd. unfold Dict.of_list. now rewrite fold_set_fresh. Qed.

Lemma keys_perm (l l' : list (K * V)) :
  Permutation l l' -> Permutation (Dict.keys l) (Dict.keys l').
Proof. apply Permutation_map. Qed.

(** Lookup does not depend on the order of the entries. *)
Lemma get_perm d d' k :
  NoDup (Dict.keys d) -> Permutation d d' -> Dict.get d k = Dict.get d' k.
Proof.
  intros Hnd Hp.
  assert (Hnd' : NoDup (Dict.keys d')).
  { eapply Permutation_NoDup; [apply keys_perm; exact Hp | exact Hnd]. }
  destruct (Dict.get d k) as [v|] eqn:Hg.
  - symmetry. apply in_get_Some; [exact Hnd'|].
    eapply Permutation_in; [exact Hp | now apply get_Some_in].
  - destruct (Dict.get d' k) as [v'|] eqn:Hg'; [|reflexivity].
    apply get_Some_in in Hg'.
    apply get_None_notin in Hg. exfalso. apply Hg.
    apply in_keys with v'.
    eapply Permutation_in; [symmetry; exact Hp | exact Hg'].
Qed.

Lemma iteritems_perm `{HashOrder (K * V)} d : Permutation (Dict.iteritems d) d.
Proof. apply iter_order_perm. Qed.

Lemma iteritems_keys_nodup `{HashOrder (K * V)} d :
  NoDup (Dict.keys d) -> NoDup (Dict.keys (Dict.iteritems d)).
Proof.
  intros Hnd. eapply Permutation_NoDup; [|exact Hnd].
  symmetry. apply keys_perm, iteritems_perm.
Qed.

End DictFacts.
End DictFacts.

(** ** Strings *)

Lemma append_assoc (a b c : string) : (a +s b) +s c = a +s (b +s c).
Proof. induction a as [|x a IH]; simpl; [reflexivity | now rewrite IH]. Qed.

Lemma append_inj_l (p a b : string) : p +s a = p +s b -> a = b.
Proof.
  induction p as [|x p IH]; simpl; [auto|].
  intros [= E]. now apply IH.
Qed.

Lemma str_of_nat_inj n m : Py.str_of_nat n = Py.str_of_nat m -> n = m.
Proof.
  unfold Py.str_of_nat. intros E.
  apply (f_equal NilEmpty.uint_of_string) in E.
  rewrite !NilEmpty.usu in E. injection E as E.
  apply (f_equal Nat.of_uint) in E.
  now rewrite !DecimalNat.Unsigned.of_to in E.
Qed.

Lemma rid_inj n m : rid n = rid m -> n = m.
Proof. unfold rid. intros E. apply append_inj_l in E. now apply str_of_nat_inj. Qed.

(** ** Elements *)

Lemma children_append root c : children (append root c) = children root ++ [c].
Proof. now destruct root. Qed.

Lemma children_fold_append {A} (f : A -> element) (l : list A) : forall root,
  children (fold_left (fun r x => append r (f x)) l root) = children root ++ map f l.
Proof.
  induction l as [|x l IH]; intros root; simpl.
  - now rewrite app_nil_r.
  - rewrite IH, children_append, <- app_assoc. reflexivity.
Qed.

(** ** The relationship registry *)

Section RegistryFacts.
Context `{Ext : Externals}.

Lemma E_get_attr ns name kwargs txt kids k :
  NoDup (Dict.keys kwargs) ->
  get_attr (E ns name kwargs txt kids) k = Dict.get kwargs k.
Proof.
  intros Hnd. unfold get_attr, E. simpl.
  rewrite DictFacts.of_list_nodup by exact Hnd.
  rewrite DictFacts.fold_set_fresh.
  - simpl. symmetry. apply DictFacts.get_perm; [exact Hnd|].
    symmetry. apply DictFacts.iteritems_perm.
  - simpl. now apply DictFacts.iteritems_keys_nodup.
Qed.

Lemma tag_E ns name kwargs txt kids :
  tag (E ns name kwargs txt kids) = clark (namespaces ns) name.
Proof. reflexivity. Qed.

Lemma children_E ns name kwargs txt kids :
  children (E ns name kwargs txt kids) = kids.
Proof. reflexivity. Qed.

Lemma get_attr_set_attr e name value k :
  get_attr (set_attr e name value) k =
  if string_dec name k then Some value else get_attr e k.
Proof. destruct e. unfold get_attr. simpl. apply DictFacts.get_set. Qed.

Lemma tag_set_attr e name value : tag (set_attr e name value) = tag e.
Proof. now destruct e. Qed.

Lemma relationship_kwargs_nodup (i ty t : string) :
  NoDup (Dict.keys [("Id", i); ("Type", ty); ("Target", t)]).
Proof.
  simpl. repeat constructor; simpl; intuition discriminate.
Qed.

Lemma relationship_element_view k i :
  rel_key (relationship_element (k, i)) = key_view k
  /\ get_attr (relationship_element (k, i)) "Id" = Some i
  /\ tag (relationship_element (k, i)) = clark (namespaces "pr") "Relationship".
Proof.
  destruct k as [[t ty] m]. unfold rel_key, relationship_element, key_view.
  pose proof (relationship_kwargs_nodup i ty t) as Hnd.
  destruct m as [m|].
  - rewrite !get_attr_set_attr, tag_set_attr, !E_get_attr by exact Hnd.
    repeat split.
  - rewrite !E_get_attr by exact Hnd. repeat split.
Qed.

Lemma serialize_children (r : DocumentRelationships) :
  children (serialize_root r) =
  map relationship_element (Dict.iteritems (rmap r)).
Proof. unfold serialize_root. now rewrite children_fold_append. Qed.

(** *** The invariant *)

Lemma rmap_ok_nil : rmap_ok [].
Proof. split; [constructor | reflexivity]. Qed.

Lemma add_key_hit r k i :
  get_id r k = Some i -> add_key r k = (i, r).
Proof.
  destruct k as [[t ty] m]. unfold get_id, add_key, add_relationship.
  now intros ->.
Qed.

Lemma add_key_miss r k :
  get_id r k = None ->
  add_key r k =
  (rid (Dict.len (rmap r) + 1),
   {| rmap := rmap r ++ [(k, rid (Dict.len (rmap r) + 1))] |}).
Proof.
  destruct k as [[t ty] m]. unfold get_id, add_key, add_relationship.
  intros Hg. rewrite Hg.
  unfold get_relationship_id in Hg. now rewrite DictFacts.set_fresh.
Qed.

(** A call only ever adds an entry at the end. *)
Lemma add_key_extends r k :
  exists ext, rmap (snd (add_key r k)) = rmap r ++ ext.
Proof.
  destruct (get_id r k) as [i|] eqn:Hg.
  - rewrite (add_key_hit _ _ _ Hg). exists []. simpl. now rewrite app_nil_r.
  - rewrite (add_key_miss _ _ Hg). now eexists.
Qed.

Lemma add_key_ok r k : rmap_ok (rmap r) -> rmap_ok (rmap (snd (add_key r k))).
Proof.
  intros [Hnd Hv].
  destruct (get_id r k) as [i|] eqn:Hg.
  - rewrite (add_key_hit _ _ _ Hg). now split.
  - rewrite (add_key_miss _ _ Hg). simpl. split.
    + unfold Dict.keys. rewrite map_app. simpl.
      apply NoDup_app; [exact Hnd | repeat constructor; simpl; tauto |].
      intros x Hin [<-|[]].
      destruct k as [[t ty] m].
      now apply DictFacts.get_None_notin in Hg.
    + rewrite map_app, length_app. unfold Dict.len. simpl.
      rewrite !Nat.add_1_r, seq_S, map_app, Hv. simpl.
      reflexivity.
Qed.

Lemma add_key_get r k : get_id (snd (add_key r k)) k = Some (fst (add_key r k)).
Proof.
  destruct (get_id r k) as [i|] eqn:Hg.
  - now rewrite (add_key_hit _ _ _ Hg).
  - rewrite (add_key_miss _ _ Hg). simpl.
    destruct k as [[t ty] m]. unfold get_id, get_relationship_id in *. simpl.
    rewrite DictFacts.get_app, Hg. simpl.
    match goal with |- context [if ?c then _ else _] => destruct c end;
      congruence.
Qed.

Lemma get_id_app r ext k i :
  get_id r k = Some i -> Dict.get (rmap r ++ ext) k = Some i.
Proof.
  destruct k as [[t ty] m]. unfold get_id, get_relationship_id.
  intros Hg. now rewrite DictFacts.get_app, Hg.
Qed.

Lemma get_id_rmap r k : get_id r k = Dict.get (rmap r) k.
Proof. now destruct k as [[t ty] m]. Qed.

(** An identifier, once given, is kept. *)
Lemma add_key_keeps r k' k i :
  get_id r k = Some i -> get_id (snd (add_key r k')) k = Some i.
Proof.
  intros Hg. destruct (add_key_extends r k') as [ext Hext].
  rewrite get_id_rmap, Hext. now apply get_id_app.
Qed.

Lemma add_all_cons r k ks :
  add_all r (k :: ks) = add_all (snd (add_key r k)) ks.
Proof. unfold add_all. simpl. now destruct k as [[t ty] m]. Qed.

Lemma add_all_ok ks : forall r, rmap_ok (rmap r) -> rmap_ok (rmap (add_all r ks)).
Proof.
  induction ks as [|k ks IH]; intros r Hok; [exact Hok|].
  rewrite add_all_cons. now apply IH, add_key_ok.
Qed.

Lemma add_all_keeps ks : forall r k i,
  get_id r k = Some i -> get_id (add_all r ks) k = Some i.
Proof.
  induction ks as [|k' ks IH]; intros r k i Hg; [exact Hg|].
  rewrite add_all_cons. now apply IH, add_key_keeps.
Qed.

Lemma add_all_extends ks : forall r,
  exists ext, rmap (add_all r ks) = rmap r ++ ext.
Proof.
  induction ks as [|k ks IH]; intros r.
  - exists []. simpl. now rewrite app_nil_r.
  - rewrite add_all_cons.
    destruct (IH (snd (add_key r k))) as [ext2 H2].
    destruct (add_key_extends r k) as [ext1 H1].
    exists (ext1 ++ ext2). now rewrite H2, H1, app_assoc.
Qed.

(** [__init__] is a sequence of calls on the empty registry. *)
Lemma init_as_add_all :
  DocumentRelationships_init =
  add_all {| rmap := [] |}
    (map (fun tt : string * string => (snd tt, fst tt, None))
         (Dict.iteritems (Dict.of_list builtin_relationships))).
Proof.
  unfold DocumentRelationships_init, add_all.
  generalize (Dict.iteritems (Dict.of_list builtin_relationships)).
  generalize {| rmap := [] |}.
  intros r l. revert r.
  induction l as [|[ty t] l IH]; intros r; simpl; [reflexivity|].
  apply IH.
Qed.

Lemma init_ok : rmap_ok (rmap DocumentRelationships_init).
Proof. rewrite init_as_add_all. apply add_all_ok, rmap_ok_nil. Qed.

Lemma reachable_ok calls :
  rmap_ok (rmap (add_all DocumentRelationships_init calls)).
Proof. apply add_all_ok, init_ok. Qed.

(** *** Consequences of the invariant *)

Lemma rmap_ok_values_nodup d : rmap_ok d -> NoDup (map snd d).
Proof.
  intros [_ Hv]. rewrite Hv.
  apply Finite.Injective_map_NoDup; [|apply seq_NoDup].
  intros n m. apply rid_inj.
Qed.

Lemma values_nodup_key_eq (d : Dict.dict Key string) k1 k2 i :
  NoDup (map snd d) -> In (k1, i) d -> In (k2, i) d -> k1 = k2.
Proof.
  induction d as [|[k v] d IH]; simpl; [tauto|].
  intros Hnd H1 H2. inversion Hnd as [|? ? Hnotin Hnd']; subst.
  assert (Hv : forall k', In (k', v) d -> False).
  { intros k' Hin. apply Hnotin. change v with (snd (k', v)). now apply in_map. }
  destruct H1 as [E1|H1], H2 as [E2|H2].
  - congruence.
  - injection E1 as -> ->. exfalso. eapply Hv, H2.
  - injection E2 as -> ->. exfalso. eapply Hv, H1.
  - now apply IH.
Qed.


Lemma serialize_views r :
  map rel_key (children (serialize_root r)) =
  map key_view (Dict.keys (Dict.iteritems (rmap r))).
Proof.
  rewrite serialize_children. unfold Dict.keys. rewrite !map_map.
  apply map_ext. intros [k i]. apply relationship_element_view.
Qed.

Lemma serialize_views_perm r :
  Permutation (map rel_key (children (serialize_root r)))
              (map key_view (Dict.keys (rmap r))).
Proof.
  rewrite serialize_views.
  apply Permutation_map, DictFacts.keys_perm, DictFacts.iteritems_perm.
Qed.



End RegistryFacts.

(** ** The built-in relationships *)

Section SeedFacts.
Context `{Ext : Externals}.

Lemma add_all_fresh ks : forall r,
  NoDup ks ->
  (forall k, In k ks -> ~ In k (Dict.keys (rmap r))) ->
  Dict.keys (rmap (add_all r ks)) = Dict.keys (rmap r) ++ ks.
Proof.
  induction ks as [|k ks IH]; intros r Hnd Hfresh.
  - simpl. now rewrite app_nil_r.
  - rewrite add_all_cons.
    inversion Hnd as [|? ? Hnotin Hnd']; subst.
    assert (Hg : get_id r k = None).
    { rewrite get_id_rmap. apply DictFacts.get_None_notin.
      apply Hfresh. now left. }
    rewrite (add_key_miss _ _ Hg). simpl.
    rewrite IH; simpl.
    + unfold Dict.keys. rewrite map_app, <- app_assoc. reflexivity.
    + exact Hnd'.
    + intros k' Hin. unfold Dict.keys. rewrite map_app. simpl.
      intros Hin'. apply in_app_or in Hin'.
      destruct Hin' as [Hin'|[<-|[]]].
      * apply (Hfresh k'); [now right | exact Hin'].
      * now apply Hnotin.
Qed.

Lemma builtin_keys_nodup : NoDup builtin_keys.
Proof.
  unfold builtin_keys.
  repeat constructor; simpl; intuition congruence.
Qed.

Section Distinct.
Hypothesis types_distinct : NoDup [STYLES; WEB_SETTINGS; FONTS].

Lemma builtin_display : Dict.of_list builtin_relationships = builtin_relationships.
Proof. apply DictFacts.of_list_nodup. exact types_distinct. Qed.

Lemma init_keys_perm :
    Permutation (Dict.keys (rmap DocumentRelationships_init)) builtin_keys.
Proof.
    rewrite init_as_add_all, builtin_display.
    assert (Hp : Permutation
                   (map (fun tt : string * string => (snd tt, fst tt, None))
                        (Dict.iteritems builtin_relationships))
                   builtin_keys).
    { change builtin_keys
        with (map (fun tt : string * string => (snd tt, fst tt, @None string))
                  builtin_relationships).
      apply Permutation_map, DictFacts.iteritems_perm. }
    rewrite add_all_fresh; simpl.
    - exact Hp.
    - eapply Permutation_NoDup; [symmetry; exact Hp | apply builtin_keys_nodup].
    - tauto.
Qed.

Lemma init_len : Dict.len (rmap DocumentRelationships_init) = 3.
Proof.
    unfold Dict.len.
    rewrite <- (length_map fst).
    apply (Permutation_length init_keys_perm).
Qed.

Lemma init_values :
    map snd (rmap DocumentRelationships_init) = [rid 1; rid 2; rid 3].
Proof.
    destruct init_ok as [_ Hv]. rewrite Hv.
    pose proof init_len as Hl. unfold Dict.len in Hl. now rewrite Hl.
Qed.

Lemma init_ids :
    Permutation (map (get_id DocumentRelationships_init) builtin_keys)
                [Some (rid 1); Some (rid 2); Some (rid 3)].
Proof.
    rewrite (map_ext _ _ (get_id_rmap DocumentRelationships_init)).
    rewrite <- (Permutation_map _ init_keys_perm).
    rewrite DictFacts.get_keys_values by apply init_ok.
    now rewrite init_values.
Qed.

Lemma builtin_key_id k :
    In k builtin_keys ->
    exists n, get_id DocumentRelationships_init k = Some (rid n) /\ 1 <= n <= 3.
Proof.
    intros Hin.
    assert (Hk : In k (Dict.keys (rmap DocumentRelationships_init))).
    { eapply Permutation_in; [symmetry; apply init_keys_perm | exact Hin]. }
    rewrite get_id_rmap.
    destruct (Dict.get (rmap DocumentRelationships_init) k) as [i|] eqn:Hg.
    - apply DictFacts.get_Some_in in Hg.
      apply (in_map snd) in Hg. rewrite init_values in Hg. simpl in Hg.
      destruct Hg as [<-|[<-|[<-|[]]]];
        [exists 1 | exists 2 | exists 3]; split; (reflexivity || lia).
    - now apply DictFacts.get_None_notin in Hg.
Qed.

Lemma caller_key_id calls k :
    ~ In k builtin_keys ->
    exists n, fst (add_key (add_all DocumentRelationships_init calls) k) = rid n
              /\ 4 <= n.
Proof.
    intros Hnot.
    set (r := add_all DocumentRelationships_init calls).
    destruct (add_all_extends calls DocumentRelationships_init) as [ext Hext].
    fold r in Hext.
    pose proof (reachable_ok calls) as [_ Hv]. fold r in Hv.
    pose proof init_len as Hl. unfold Dict.len in Hl.
    assert (Hlen : List.length (rmap r) = 3 + List.length ext).
    { now rewrite Hext, length_app, Hl. }
    destruct (get_id r k) as [i|] eqn:Hg.
    - rewrite (add_key_hit _ _ _ Hg). simpl.
      rewrite Hlen, seq_app, map_app in Hv.
      rewrite Hext, map_app, init_values in Hv.
      apply app_inv_head in Hv.
      rewrite get_id_rmap, Hext in Hg.
      apply DictFacts.get_Some_in, in_app_or in Hg.
      destruct Hg as [Hg|Hg].
      + exfalso. apply Hnot.
        eapply Permutation_in; [apply init_keys_perm|].
        now apply DictFacts.in_keys with i.
      + apply (in_map snd) in Hg. rewrite Hv in Hg. simpl in Hg.
        apply in_map_iff in Hg. destruct Hg as [n [<- Hn]].
        apply in_seq in Hn. exists n. split; [reflexivity | lia].
    - rewrite (add_key_miss _ _ Hg). simpl.
      exists (Dict.len (rmap r) + 1). split; [reflexivity|].
      unfold Dict.len. lia.
Qed.

(** C7. The registry built by [__init__] holds exactly the three
      built-in keys, with the identifiers rId1, rId2 and rId3 among
      them; after any calls of a caller, a call for a built-in key
      returns that key's built-in identifier and a call for any other
      key returns rId<n> with n at least 4. *)
Theorem builtin_relationships_first :
    Dict.len (rmap DocumentRelationships_init) = 3
    /\ Permutation (map (get_id DocumentRelationships_init) builtin_keys)
                   [Some (rid 1); Some (rid 2); Some (rid 3)]
    /\ forall (calls : list Key) (k : Key),
         exists n,
           fst (add_key (add_all DocumentRelationships_init calls) k) = rid n
           /\ if in_dec eq_dec k builtin_keys
              then get_id DocumentRelationships_init k = Some (rid n)
                   /\ 1 <= n <= 3
              else 4 <= n.
Proof.
    split; [apply init_len|]. split; [apply init_ids|].
    intros calls k.
    destruct (in_dec eq_dec k builtin_keys) as [Hin|Hnot].
    - destruct (builtin_key_id k Hin) as [n [Hg Hn]].
      exists n. split; [|now split].
      erewrite add_key_hit; [reflexivity|].
      now apply add_all_keeps.
    - now apply caller_key_id.
Qed.

End Distinct.
End SeedFacts.

(** ** The order of the serialized relationships *)

Section OrderFacts.
Context `{Ext : Externals}.

(** C4, as the code has it.  [serialize] emits the element of each entry
    in the order in which the interpreter enumerates the [rmap] dict: every
    registered key once, so a rearrangement of the order of insertion, and
    the order of insertion itself whenever the dict enumerates its entries
    as inserted. *)
Theorem serialize_in_dict_order (calls : list Key) :
  let r := add_all DocumentRelationships_init calls in
  children (serialize_root r) = map relationship_element (Dict.iteritems (rmap r))
  /\ map rel_key (children (serialize_root r))
     = map key_view (Dict.keys (Dict.iteritems (rmap r)))
  /\ Permutation (map rel_key (children (serialize_root r)))
                 (map key_view (Dict.keys (rmap r)))
  /\ ((forall d : Dict.dict Key string, Dict.iteritems d = d) ->
      map rel_key (children (serialize_root r)) = map key_view (Dict.keys (rmap r))).
Proof.
  intros r. repeat split.
  - apply serialize_children.
  - apply serialize_views.
  - apply serialize_views_perm.
  - intros Hfifo. now rewrite serialize_views, Hfifo.
Qed.

End OrderFacts.

(** C4, as stated, fails.  With a dict that enumerates its entries last
    inserted first, a registry on which one image was registered after
    construction is serialized with the image first and the built-in
    relationships after it, not in the order of insertion. *)
Lemma serialize_not_insertion_order :
  let r := add_all (@DocumentRelationships_init env_lifo)
                   [("media/cover.png", @IMAGES env_lifo, None)] in
  map key_view (Dict.keys (rmap r))
  = [ key_view ("fontTable.xml", @FONTS env_lifo, None);
      key_view ("webSettings.xml", @WEB_SETTINGS env_lifo, None);
      key_view ("styles.xml", @STYLES env_lifo, None);
      key_view ("media/cover.png", @IMAGES env_lifo, None) ]
  /\ map rel_key (children (@serialize_root env_lifo r))
     = [ key_view ("media/cover.png", @IMAGES env_lifo, None);
         key_view ("styles.xml", @STYLES env_lifo, None);
         key_view ("webSettings.xml", @WEB_SETTINGS env_lifo, None);
         key_view ("fontTable.xml", @FONTS env_lifo, None) ]
  /\ map rel_key (children (@serialize_root env_lifo r))
     <> map key_view (Dict.keys (rmap r)).
Proof.
  vm_compute. repeat split. discriminate.
Qed.

(** Witness of C7 in the reference environment. *)
Lemma builtin_relationships_first_witness :
  NoDup [@STYLES env_fifo; @WEB_SETTINGS env_fifo; @FONTS env_fifo]
  /\ Dict.len (rmap (@DocumentRelationships_init env_fifo)) = 3.
Proof.
  assert (H : NoDup [@STYLES env_fifo; @WEB_SETTINGS env_fifo; @FONTS env_fifo]).
  { repeat constructor; simpl; intuition discriminate. }
  split; [exact H | exact (proj1 (@builtin_relationships_first env_fifo H))].
Defined.

(** ** Replacing a property element *)

Lemma remove_at_app (pre : list element) c rest :
  remove_at (List.length pre) (pre ++ c :: rest) = pre ++ rest.
Proof. induction pre as [|p pre IH]; simpl; [reflexivity | now rewrite IH]. Qed.

(** The removal loop leaves exactly the children with another tag. *)
Lemma remove_tagged_spec t snapshot : forall pre,
  remove_tagged t snapshot (pre ++ snapshot) (List.length pre)
  = pre ++ filter (fun c => negb (String.eqb (tag c) t)) snapshot.
Proof.
  induction snapshot as [|c rest IH]; intros pre; simpl.
  - reflexivity.
  - destruct (String.eqb (tag c) t); simpl.
    + rewrite remove_at_app. apply IH.
    + specialize (IH (pre ++ [c])).
      rewrite <- app_assoc, length_app, Nat.add_1_r in IH. simpl in IH.
      rewrite IH, <- app_assoc. reflexivity.
Qed.

Lemma last_chr_append a b : b <> "" -> last_chr (a +s b) = last_chr b.
Proof.
  intros Hb. induction a as [|x a IH]; simpl; [reflexivity|].
  rewrite IH. destruct (a +s b) eqn:E; [|reflexivity].
  destruct a; simpl in E; [contradiction | discriminate].
Qed.

Lemma last_chr_clark uri name : name <> "" -> last_chr (clark uri name) = last_chr name.
Proof.
  intros Hn. unfold clark.
  rewrite !last_chr_append; trivial.
  - destruct name; [contradiction | discriminate].
  - destruct uri; discriminate.
Qed.

Lemma clark_same_uri uri n1 n2 : clark uri n1 = clark uri n2 -> n1 = n2.
Proof.
  unfold clark. intros E.
  apply (append_inj_l "{") in E. apply append_inj_l in E.
  now apply (append_inj_l "}") in E.
Qed.

Lemma length_append a b :
  String.length (a +s b) = String.length a + String.length b.
Proof. induction a as [|x a IH]; simpl; [reflexivity | now rewrite IH]. Qed.

Lemma last_n_append k a b :
  k <= String.length b -> last_n k (a +s b) = last_n k b.
Proof.
  intros Hk. induction a as [|x a IH]; simpl; [reflexivity|].
  rewrite length_append.
  destruct (Nat.leb_spec k (String.length a + String.length b)); [exact IH | lia].
Qed.

Lemma last_n_clark k uri name :
  k <= String.length name -> last_n k (clark uri name) = last_n k name.
Proof.
  intros Hk. unfold clark.
  rewrite !last_n_append; trivial; rewrite ?length_append; simpl; lia.
Qed.

(** Two names that differ in their last four characters give different
    qualified names, whatever the namespaces. *)
Lemma clark_ne_last4 u1 u2 n1 n2 :
  4 <= String.length n1 -> 4 <= String.length n2 ->
  last_n 4 n1 <> last_n 4 n2 ->
  clark u1 n1 = clark u2 n2 -> False.
Proof.
  intros H1 H2 Hne E. apply Hne.
  rewrite <- (last_n_clark 4 u1 n1 H1), <- (last_n_clark 4 u2 n2 H2).
  now rewrite E.
Qed.

Ltac tag_ne :=
  match goal with
  | H : clark _ _ = clark _ _ |- _ =>
      revert H; apply clark_ne_last4;
      [ simpl; lia | simpl; lia | vm_compute; discriminate ]
  end.

Lemma filter_filter_and {A} (f g : A -> bool) l :
  filter f (filter g l) = filter (fun x => g x && f x) l.
Proof.
  induction l as [|x l IH]; simpl; [reflexivity|].
  destruct (g x); simpl; [destruct (f x)|]; now rewrite IH.
Qed.

Lemma others_nil l : others [] l = l.
Proof.
  unfold others. induction l as [|x l IH]; simpl; [reflexivity | now f_equal].
Qed.

Lemma others_cons t ts l :
  others ts (filter (fun c => negb (String.eqb (tag c) t)) l) = others (t :: ts) l.
Proof.
  unfold others. rewrite filter_filter_and. apply filter_ext.
  intros c. simpl. now rewrite negb_orb.
Qed.

Lemma others_app ts l1 l2 : others ts (l1 ++ l2) = others ts l1 ++ others ts l2.
Proof. apply filter_app. Qed.

Lemma others_idem ts l : others ts (others ts l) = others ts l.
Proof.
  unfold others. rewrite filter_filter_and. apply filter_ext.
  intros c. now destruct (existsb _ ts).
Qed.

Lemma element_eta e1 e2 :
  tag e1 = tag e2 -> attrib e1 = attrib e2 -> text e1 = text e2 ->
  children e1 = children e2 -> e1 = e2.
Proof. destruct e1, e2. simpl. congruence. Qed.

Lemma others_in t ts l :
  existsb (String.eqb t) ts = true ->
  filter (fun c => String.eqb (tag c) t) (others ts l) = [].
Proof.
  intros Hin. unfold others. rewrite filter_filter_and.
  induction l as [|c l IH]; simpl; [reflexivity|].
  destruct (String.eqb_spec (tag c) t) as [->|Hne].
  - rewrite Hin. simpl. exact IH.
  - rewrite andb_false_r. exact IH.
Qed.

Lemma others_out t ts l :
  existsb (String.eqb t) ts = false ->
  filter (fun c => String.eqb (tag c) t) (others ts l)
  = filter (fun c => String.eqb (tag c) t) l.
Proof.
  intros Hout. unfold others. rewrite filter_filter_and. apply filter_ext.
  intros c. destruct (String.eqb_spec (tag c) t) as [->|Hne].
  - now rewrite Hout.
  - apply andb_false_r.
Qed.

Lemma existsb_incl {A} (f : A -> bool) (l1 l2 : list A) :
  incl l1 l2 -> existsb f l2 = false -> existsb f l1 = false.
Proof.
  intros Hincl H2. apply Bool.not_true_is_false. intros H1.
  apply existsb_exists in H1. destruct H1 as [x [Hin Hx]].
  assert (existsb f l2 = true) by (apply existsb_exists; exists x; auto).
  congruence.
Qed.

Lemma accepted_incl steps : incl (accepted steps) (attempted steps).
Proof.
  induction steps as [|st steps IH]; simpl; [easy|].
  destruct (xml_text (step_text st)); [|easy].
  intros x [<-|Hin]; [now left | right; now apply IH].
Qed.

Lemma attempted_incl steps : incl (attempted steps) steps.
Proof.
  induction steps as [|st steps IH]; simpl; [easy|].
  destruct (xml_text (step_text st)).
  - intros x [<-|Hin]; [now left | right; now apply IH].
  - intros x [<-|[]]. now left.
Qed.

Lemma accepted_all steps :
  forallb xml_text (map step_text steps) = true ->
  accepted steps = steps /\ attempted steps = steps.
Proof.
  induction steps as [|st steps IH]; simpl; [easy|].
  intros H. apply andb_prop in H. destruct H as [-> H].
  destruct (IH H) as [-> ->]. easy.
Qed.

Section PropertyFacts.
Context `{Ext : Externals}.

(** What a call does: the children of that name go, and the new element
    comes last unless its text is refused. *)
Lemma setm_eq root name txt ns :
  setm root name txt ns
  = let kept :=
      Element (tag root) (attrib root) (text root)
              (filter (fun c => negb (String.eqb (tag c) (clark (namespaces ns) name)))
                      (children root)) in
    if xml_text txt
    then (Ok (Element (clark (namespaces ns) name) [] txt []),
          append kept (Element (clark (namespaces ns) name) [] txt []))
    else (Raise (ValueError not_xml), kept).
Proof.
  destruct root as [t a x c]. unfold setm. cbn [tag attrib text children].
  now rewrite (remove_tagged_spec _ c []).
Qed.

Lemma setm_children root name txt ns :
  children (snd (setm root name txt ns))
  = filter (fun c => negb (String.eqb (tag c) (clark (namespaces ns) name)))
           (children root)
    ++ (if xml_text txt then [Element (clark (namespaces ns) name) [] txt []]
        else []).
Proof.
  rewrite setm_eq. cbv zeta. destruct (xml_text txt); cbn [snd].
  - now rewrite children_append.
  - cbn [children]. now rewrite app_nil_r.
Qed.


Lemma setm_shell root name txt ns :
  tag (snd (setm root name txt ns)) = tag root
  /\ attrib (snd (setm root name txt ns)) = attrib root
  /\ text (snd (setm root name txt ns)) = text root.
Proof.
  rewrite setm_eq. cbv zeta. destruct root, (xml_text txt); repeat split.
Qed.

Lemma apply_steps_cons root name txt ns rest :
  apply_steps root ((name, txt, ns) :: rest)
  = if xml_text txt then apply_steps (snd (setm root name txt ns)) rest
    else (Raise (ValueError not_xml), snd (setm root name txt ns)).
Proof.
  cbn [apply_steps]. rewrite setm_eq. cbv zeta.
  now destruct (xml_text txt).
Qed.

Lemma apply_steps_shell steps : forall root,
  tag (snd (apply_steps root steps)) = tag root
  /\ attrib (snd (apply_steps root steps)) = attrib root
  /\ text (snd (apply_steps root steps)) = text root.
Proof.
  induction steps as [|[[name txt] ns] steps IH]; intros root.
  - repeat split.
  - rewrite apply_steps_cons.
    destruct (setm_shell root name txt ns) as (Ht & Ha & Hx).
    destruct (xml_text txt).
    + destruct (IH (snd (setm root name txt ns))) as (-> & -> & ->). easy.
    + easy.
Qed.

Lemma apply_steps_outcome steps : forall root,
  fst (apply_steps root steps)
  = if forallb xml_text (map step_text steps) then Ok tt
    else Raise (ValueError not_xml).
Proof.
  induction steps as [|[[name txt] ns] steps IH]; intros root.
  - reflexivity.
  - rewrite apply_steps_cons. cbn [map forallb step_text fst snd].
    destruct (xml_text txt); [apply IH | reflexivity].
Qed.

(** A sequence of calls for pairwise distinct names: what is left of the
    children, and what has been appended, when it returns or raises. *)
Lemma apply_steps_children steps : forall root,
  NoDup (map step_tag steps) ->
  children (snd (apply_steps root steps))
  = others (map step_tag (attempted steps)) (children root)
    ++ map step_element (accepted steps).
Proof.
  induction steps as [|[[name txt] ns] steps IH]; intros root Hnd.
  - simpl. now rewrite others_nil, app_nil_r.
  - inversion Hnd as [|? ? Hnotin Hnd']; subst.
    rewrite apply_steps_cons. cbn [attempted accepted step_text fst snd].
    pose proof (setm_children root name txt ns) as Hc.
    destruct (xml_text txt).
    + rewrite IH by exact Hnd'. rewrite Hc, others_app, others_cons.
      cbn [map step_tag step_element].
      rewrite <- app_assoc. f_equal.
      unfold others. cbn [filter tag].
      replace (existsb (String.eqb (clark (namespaces ns) name))
                       (map step_tag (attempted steps)))
        with false; [reflexivity|].
      symmetry. apply Bool.not_true_is_false. intros H.
      apply existsb_exists in H. destruct H as [t [Hin Heq]].
      apply String.eqb_eq in Heq. subst t. apply Hnotin.
      apply in_map_iff in Hin. destruct Hin as [st [<- Hin]].
      apply in_map. now apply attempted_incl.
    + cbn [snd]. rewrite Hc, app_nil_r. cbn [map step_tag].
      now rewrite <- others_cons, others_nil, app_nil_r.
Qed.

Lemma update_as_steps root m :
  update_doc_props root m = apply_steps root (property_steps m).
Proof.
  unfold update_doc_props, property_steps, and_then.
  destruct (Py.nonempty (tags m)), (Py.truthy (comments m)),
    (languages m) as [|l0 ls]; cbn [app apply_steps];
    repeat match goal with
           | |- context [setm ?r ?n ?t ?ns] =>
               destruct (setm r n t ns) as [[?|?] ?]
           end;
    reflexivity.
Qed.

Lemma property_steps_tags m : map step_tag (property_steps m) = properties_set m.
Proof.
  unfold property_steps, properties_set.
  destruct (Py.nonempty (tags m)), (Py.truthy (comments m)),
    (languages m) as [|l0 ls]; reflexivity.
Qed.

Lemma property_steps_texts m :
  map step_text (property_steps m)
  = record_texts authors_to_string canonicalize_lang lang_as_iso639_1 m.
Proof.
  unfold property_steps, record_texts.
  destruct (Py.nonempty (tags m)), (Py.truthy (comments m)),
    (languages m) as [|l0 ls]; reflexivity.
Qed.

(** The names that one update sets are pairwise distinct, whatever the
    namespace table. *)
Lemma properties_set_nodup m : NoDup (properties_set m).
Proof.
  unfold properties_set.
  destruct (Py.nonempty (tags m)), (Py.truthy (comments m)),
    (Py.nonempty (languages m));
    cbn [app];
    repeat (constructor;
            [ intros H; cbn [In] in H;
              repeat (destruct H as [H|H]; [tag_ne|]); exact H | ]);
    constructor.
Qed.

Lemma property_steps_nodup m : NoDup (map step_tag (property_steps m)).
Proof. rewrite property_steps_tags. apply properties_set_nodup. Qed.

Lemma update_children root m :
  children (snd (update_doc_props root m))
  = others (properties_attempted m) (children root) ++ new_elements m.
Proof.
  rewrite update_as_steps. apply apply_steps_children, property_steps_nodup.
Qed.

Lemma update_shell root m :
  tag (snd (update_doc_props root m)) = tag root
  /\ attrib (snd (update_doc_props root m)) = attrib root
  /\ text (snd (update_doc_props root m)) = text root.
Proof. rewrite update_as_steps. apply apply_steps_shell. Qed.

Lemma update_outcome root m :
  fst (update_doc_props root m)
  = if record_accepted m then Ok tt else Raise (ValueError not_xml).
Proof. rewrite update_as_steps. apply apply_steps_outcome. Qed.

Lemma attempted_are_set m : incl (properties_attempted m) (properties_set m).
Proof.
  unfold properties_attempted. rewrite <- property_steps_tags.
  intros t Hin. apply in_map_iff in Hin. destruct Hin as [st [<- Hin]].
  apply in_map. now apply attempted_incl.
Qed.

Lemma elements_of_other_names t (l : list (string * option string * string)) :
  existsb (String.eqb t) (map step_tag l) = false ->
  filter (fun c => String.eqb (tag c) t) (map step_element l) = [].
Proof.
  induction l as [|[[name txt] ns] l IH]; [reflexivity|].
  cbn [map existsb step_tag step_element filter tag].
  intros H. apply orb_false_elim in H. destruct H as [H1 H2].
  rewrite String.eqb_sym, H1. now apply IH.
Qed.



(** The elements of one name after an update. *)
Lemma find_all_update t root m :
  find_all t (snd (update_doc_props root m))
  = (if existsb (String.eqb t) (properties_attempted m) then []
     else find_all t root)
    ++ filter (fun c => String.eqb (tag c) t) (new_elements m).
Proof.
  unfold find_all. rewrite update_children, filter_app. f_equal.
  destruct (existsb (String.eqb t) (properties_attempted m)) eqn:E;
    [now apply others_in | now apply others_out].
Qed.

Lemma not_attempted_not_new t m :
  existsb (String.eqb t) (properties_attempted m) = false ->
  filter (fun c => String.eqb (tag c) t) (new_elements m) = [].
Proof.
  intros Ha. unfold new_elements. apply elements_of_other_names.
  eapply existsb_incl; [|exact Ha].
  unfold properties_attempted. apply incl_map, accepted_incl.
Qed.

(** An update leaves the elements of a name that it does not set. *)
Lemma update_keeps_foreign t root m :
  sets_property t m = false ->
  find_all t (snd (update_doc_props root m)) = find_all t root.
Proof.
  intros H. rewrite find_all_update.
  assert (Ha : existsb (String.eqb t) (properties_attempted m) = false)
    by (eapply existsb_incl; [apply attempted_are_set | exact H]).
  rewrite Ha, not_attempted_not_new by exact Ha. apply app_nil_r.
Qed.









(** The record that [convert_metadata] reads back from the serialized
    package is accepted: its update returns. *)
Lemma book_metadata_accepted oeb : record_accepted (to_book_metadata oeb) = true.
Proof.
  unfold record_accepted. rewrite property_steps_texts.
  apply book_metadata_xml.
Qed.


End PropertyFacts.



(** ** The content-type manifest *)

Lemma pyset_add_in x y s : In x (PySet.add s y) <-> In x s \/ x = y.
Proof.
  unfold PySet.add, PySet.mem.
  destruct (in_dec string_dec y s) as [Hin|Hnot].
  - split; [tauto | intros [H| ->]; assumption].
  - rewrite in_app_iff. simpl. intuition.
Qed.

Lemma pyset_mem_false x s : PySet.mem x s = false <-> ~ In x s.
Proof.
  unfold PySet.mem. destruct (in_dec string_dec x s); split; auto;
    try discriminate; tauto.
Qed.

Section ManifestFacts.
Context `{Ext : Externals}.

Lemma default_kwargs_nodup (ext mt : string) :
  NoDup (Dict.keys [("Extension", ext); ("ContentType", mt)]).
Proof. simpl. repeat constructor; simpl; intuition discriminate. Qed.

Lemma default_of_view en :
  tag (default_of en) = clark (namespaces "ct") "Default"
  /\ get_attr (default_of en) "Extension" = Some (fst en)
  /\ get_attr (default_of en) "ContentType" = Some (snd en).
Proof.
  unfold default_of, E_Default.
  rewrite !E_get_attr by apply default_kwargs_nodup.
  repeat split.
Qed.

(** The first [Default] loop runs to its end when every type is found. *)
Lemma looked_up_loop l :
  (forall ext, In ext l -> guess_type ("a." +s ext) <> None) ->
  forall types,
    rfold (fun types ext =>
             match guess_type ("a." +s ext) with
             | Some mt => Ok (append types (E_Default ext mt))
             | None => Raise (KeyError "NoneType")
             end) l types
    = Ok (fold_left
            (fun types ext => append types (default_of (ext, type_of_ext ext)))
            l types).
Proof.
  induction l as [|ext l IH]; intros Hk types; cbn [rfold fold_left];
    [reflexivity|].
  destruct (guess_type ("a." +s ext)) as [mt|] eqn:Hg.
  - cbn [rbind].
    replace (default_of (ext, type_of_ext ext)) with (E_Default ext mt)
      by (unfold default_of, type_of_ext; now rewrite Hg).
    apply IH. intros e He. apply Hk. now right.
  - exfalso. apply (Hk ext); [now left | exact Hg].
Qed.

(** The loop over the two hard-coded types. *)
Lemma fixed_loop (p : list (string * string)) : forall types added,
  fold_left
    (fun st em =>
       let '(types, added) := st in
       let added := PySet.add added (fst em) in
       (append types (E_Default (fst em) (snd em)), added))
    p (types, added)
  = (fold_left (fun types em => append types (default_of em)) p types,
     fold_left PySet.add (map fst p) added).
Proof.
  induction p as [|em p IH]; intros types added; simpl; [reflexivity|].
  apply IH.
Qed.

Lemma fold_add_in l : forall s x,
  In x (fold_left PySet.add l s) <-> In x s \/ In x l.
Proof.
  induction l as [|y l IH]; intros s x; simpl.
  - tauto.
  - rewrite IH, pyset_add_in. intuition.
Qed.

(** The loop over the embedded resources appends the declarations of
    pairwise distinct extensions that were not declared before, each with
    the non-empty type that the lookup finds. *)
Lemma images_loop fnames : forall types added,
  exists entries added',
    declare_resources fnames (types, added)
    = (fold_left (fun types en => append types (default_of en)) entries types,
       added')
    /\ NoDup (map fst entries)
    /\ (forall en, In en entries ->
          ~ In (fst en) added
          /\ guess_type ("a." +s fst en) = Some (snd en)
          /\ snd en <> ""
          /\ exists fname, In fname fnames
                           /\ fst en = snd (Py.rpartition extsep fname)).
Proof.
  induction fnames as [|fname fnames IH]; intros types added.
  - exists [], added. simpl.
    split; [reflexivity|]. split; [constructor | intros en []].
  - unfold declare_resources in *. cbn [fold_left].
    set (ext := snd (Py.rpartition extsep fname)).
    destruct (PySet.mem ext added) eqn:Hmem.
    + destruct (IH types added) as (entries & added' & Heq & Hnd & Hall).
      exists entries, added'.
      split; [exact Heq|]. split; [exact Hnd|].
      intros en Hin. destruct (Hall en Hin) as (H1 & H2 & H3 & f & Hf & Hext).
      split; [exact H1|]. split; [exact H2|]. split; [exact H3|].
      exists f. split; [now right | exact Hext].
    + apply pyset_mem_false in Hmem.
      assert (Hrest : forall en entries,
                 (forall en, In en entries ->
                    ~ In (fst en) (PySet.add added ext)
                    /\ guess_type ("a." +s fst en) = Some (snd en)
                    /\ snd en <> ""
                    /\ exists f, In f fnames
                                 /\ fst en = snd (Py.rpartition extsep f)) ->
                 In en entries ->
                 ~ In (fst en) added /\ fst en <> ext
                 /\ guess_type ("a." +s fst en) = Some (snd en)
                 /\ snd en <> ""
                 /\ exists f, In f (fname :: fnames)
                              /\ fst en = snd (Py.rpartition extsep f)).
      { intros en entries Hall Hin.
        destruct (Hall en Hin) as (H1 & H2 & H3 & f & Hf & Hext).
        rewrite pyset_add_in in H1.
        split; [tauto|]. split; [tauto|]. split; [exact H2|]. split; [exact H3|].
        exists f. split; [now right | exact Hext]. }
      destruct (guess_type ("a." +s ext)) as [[|c mt]|] eqn:Hg.
      * destruct (IH types (PySet.add added ext))
          as (entries & added' & Heq & Hnd & Hall).
        exists entries, added'.
        split; [exact Heq|]. split; [exact Hnd|].
        intros en Hin. destruct (Hrest en entries Hall Hin) as (?&?&?&?&?).
        tauto.
      * destruct (IH (append types (E_Default ext (String c mt)))
                     (PySet.add added ext))
          as (entries & added' & Heq & Hnd & Hall).
        exists ((ext, String c mt) :: entries), added'.
        split; [exact Heq|]. split.
        -- simpl. constructor; [|exact Hnd].
           intros Hin. apply in_map_iff in Hin.
           destruct Hin as [en [E Hin]].
           destruct (Hrest en entries Hall Hin) as (_ & Hne & _).
           now apply Hne.
        -- intros en [<-|Hin].
           ++ simpl. split; [exact Hmem|]. split; [exact Hg|].
              split; [discriminate|].
              exists fname. split; [now left | reflexivity].
           ++ destruct (Hrest en entries Hall Hin) as (?&?&?&?&?).
              tauto.
      * destruct (IH types (PySet.add added ext))
          as (entries & added' & Heq & Hnd & Hall).
        exists entries, added'.
        split; [exact Heq|]. split; [exact Hnd|].
        intros en Hin. destruct (Hrest en entries Hall Hin) as (?&?&?&?&?).
        tauto.
Qed.

Lemma filter_map_none {A B} (f : B -> bool) (g : A -> B) l :
  (forall x, f (g x) = false) -> filter f (map g l) = [].
Proof.
  intros Hf. induction l as [|x l IH]; simpl; [reflexivity|].
  now rewrite Hf.
Qed.

Lemma filter_map_all {A B} (f : B -> bool) (g : A -> B) l :
  (forall x, f (g x) = true) -> filter f (map g l) = map g l.
Proof.
  intros Hf. induction l as [|x l IH]; simpl; [reflexivity|].
  now rewrite Hf, IH.
Qed.

Lemma override_not_default pm :
  String.eqb (tag (override_of pm)) (clark (namespaces "ct") "Default") = false.
Proof.
  apply String.eqb_neq. unfold override_of. rewrite tag_E.
  intros E. apply clark_same_uri in E. discriminate.
Qed.

Lemma default_is_default en :
  String.eqb (tag (default_of en)) (clark (namespaces "ct") "Default") = true.
Proof. apply String.eqb_eq. apply default_of_view. Qed.

(** The manifest, when every type of the first [Default] loop is found:
    its [Default] elements are those of the six looked-up extensions, the
    two hard-coded ones, and the new extensions of the resources. *)
Lemma contenttypes_root_defaults fnames :
  fixed_types_known ->
  exists root img_entries,
    contenttypes_root fnames = Ok root
    /\ default_entries root
       = map (fun en => (Some (fst en), Some (snd en)))
             (map (fun ext => (ext, type_of_ext ext))
                  (iter_order looked_up_extensions)
              ++ Dict.iteritems fixed_defaults ++ img_entries)
    /\ NoDup (map fst img_entries)
    /\ (forall en, In en img_entries ->
          ~ In (fst en) (looked_up_extensions ++ map fst fixed_defaults)
          /\ guess_type ("a." +s fst en) = Some (snd en)
          /\ snd en <> ""
          /\ exists fname, In fname fnames
                           /\ fst en = snd (Py.rpartition extsep fname)).
Proof.
  intros Hknown. unfold contenttypes_root, declare_fixed.
  change (PySet.of_list looked_up_extensions) with looked_up_extensions.
  change (Dict.of_list fixed_defaults) with fixed_defaults.
  rewrite looked_up_loop.
  2:{ intros ext Hin. apply Hknown.
      eapply Permutation_in; [apply iter_order_perm | exact Hin]. }
  cbn [rbind]. rewrite fixed_loop.
  match goal with
  | |- context [declare_resources fnames (?types, ?added)] =>
      destruct (images_loop fnames types added)
        as (img & added' & Heq & Hnd & Hall);
      set (added2 := added) in *
  end.
  rewrite Heq. cbn [fst].
  eexists. exists img. split; [reflexivity|].
  split; [|split; [exact Hnd|]].
  - unfold default_entries, find_all.
    rewrite !children_fold_append. cbn [children E app].
    rewrite !filter_app.
    rewrite filter_map_none by (intros pm; apply (override_not_default pm)).
    rewrite !(filter_map_all _ default_of) by apply default_is_default.
    rewrite (filter_map_all _ (fun x => default_of (x, type_of_ext x)))
      by (intros x; apply default_is_default).
    cbn [app]. rewrite !map_app, !map_map, <- app_assoc.
    f_equal; [|f_equal]; apply map_ext.
    + intros x.
      destruct (default_of_view (x, type_of_ext x)) as (_ & -> & ->).
      reflexivity.
    + intros en. destruct (default_of_view en) as (_ & -> & ->). reflexivity.
    + intros en. destruct (default_of_view en) as (_ & -> & ->). reflexivity.
  - intros en Hin. destruct (Hall en Hin) as (H1 & H2 & H3 & H4).
    split; [|tauto].
    intros Hin'. apply H1. subst added2.
    apply fold_add_in. apply in_app_or in Hin'.
    destruct Hin' as [Hin'|Hin']; [now left | right].
    eapply Permutation_in; [|exact Hin'].
    symmetry. apply Permutation_map, DictFacts.iteritems_perm.
Qed.

Lemma nonempty_known : fixed_types_nonempty -> fixed_types_known.
Proof.
  intros Hne ext Hin E. specialize (Hne ext Hin). now rewrite E in Hne.
Qed.

Lemma truthy_Some s : s <> "" -> Py.truthy (Some s) = true.
Proof. destruct s; [contradiction | reflexivity]. Qed.

Lemma truthy_type_of_ext ext :
  Py.truthy (guess_type ("a." +s ext)) = true -> type_of_ext ext <> "".
Proof.
  unfold type_of_ext.
  destruct (guess_type ("a." +s ext)) as [[|c mt]|]; simpl; discriminate.
Qed.

Lemma fixed_exts_nodup : NoDup (looked_up_extensions ++ map fst fixed_defaults).
Proof. simpl. repeat constructor; simpl; intuition discriminate. Qed.

(** The extensions declared by a manifest, whatever the order in which the
    sets and dicts were enumerated, are pairwise distinct. *)
Lemma declared_exts_nodup (img : list (string * string)) :
  NoDup (map fst img) ->
  (forall en, In en img ->
     ~ In (fst en) (looked_up_extensions ++ map fst fixed_defaults)) ->
  NoDup (map fst
           (map (fun ext => (ext, type_of_ext ext))
                (iter_order looked_up_extensions)
            ++ Dict.iteritems fixed_defaults ++ img)).
Proof.
  intros Hnd Hnew.
  rewrite app_assoc, map_app, map_app, map_map. cbn [fst].
  rewrite map_id.
  assert (Hp : Permutation
                 (iter_order looked_up_extensions
                  ++ map fst (Dict.iteritems fixed_defaults))
                 (looked_up_extensions ++ map fst fixed_defaults)).
  { apply Permutation_app; [apply iter_order_perm|].
    apply Permutation_map, DictFacts.iteritems_perm. }
  apply NoDup_app.
  - eapply Permutation_NoDup; [symmetry; exact Hp | apply fixed_exts_nodup].
  - exact Hnd.
  - intros x Hx Hin. apply in_map_iff in Hin. destruct Hin as [en [<- Hin]].
    apply (Hnew en Hin). eapply Permutation_in; [exact Hp | exact Hx].
Qed.

(** The property on an assembler: the fixed loops first, then the
    resources of [self.images]. *)
Lemma contenttypes_run w imgs types :
  images (self w) = Some imgs ->
  contenttypes_root (Dict.iterkeys imgs) = Ok types ->
  contenttypes w = (Ok (xml2str types), w).
Proof.
  intros Himgs Htypes. unfold contenttypes_root in Htypes.
  unfold contenttypes, bind, getattr, lift, ret.
  destruct declare_fixed as [st|e]; simpl in Htypes; [|discriminate].
  injection Htypes as <-. now rewrite Himgs.
Qed.

(** C3. When the lookup finds a type for each of the six extensions of
    the first loop, the manifest is computed without an exception for every
    list of resource names, and its [Default] elements carry pairwise
    distinct extensions; the property [contenttypes] of an assembler whose
    [images] enumerate these names returns the serialization of that
    manifest. *)
Theorem contenttypes_no_duplicate_defaults (fnames : list string) :
  fixed_types_known ->
  exists root,
    contenttypes_root fnames = Ok root
    /\ NoDup (default_exts root)
    /\ forall w imgs,
         images (self w) = Some imgs ->
         Dict.iterkeys imgs = fnames ->
         contenttypes w = (Ok (xml2str root), w).
Proof.
  intros Hknown.
  destruct (contenttypes_root_defaults fnames Hknown)
    as (root & img & Hroot & Hentries & Hnd & Hall).
  exists root. split; [exact Hroot|]. split.
  - unfold default_exts. rewrite Hentries, map_map. cbn [fst].
    rewrite <- (map_map fst Some).
    apply Finite.Injective_map_NoDup; [intros x y; congruence|].
    apply declared_exts_nodup; [exact Hnd|].
    intros en Hin. apply (Hall en Hin).
  - intros w imgs Himgs Hkeys. subst fnames.
    now apply contenttypes_run with imgs.
Qed.

(** When the lookup finds no type for one of the six extensions of the
    first loop, no manifest is produced. *)
Lemma looked_up_unknown_raises fnames ext :
  In ext looked_up_extensions ->
  guess_type ("a." +s ext) = None ->
  contenttypes_root fnames = Raise (KeyError "NoneType").
Proof.
  intros Hin Hnone. unfold contenttypes_root, declare_fixed.
  change (PySet.of_list looked_up_extensions) with looked_up_extensions.
  assert (Hin' : In ext (iter_order looked_up_extensions)).
  { eapply Permutation_in; [symmetry; apply iter_order_perm | exact Hin]. }
  match goal with
  | |- rbind (rbind (rfold ?body ?l ?types) ?k) ?k' = _ =>
      assert (Hr : rfold body l types = Raise (KeyError "NoneType"));
      [ generalize types | now rewrite Hr ]
  end.
  induction (iter_order looked_up_extensions) as [|x l IH]; [contradiction|].
  intros types. cbn [rfold].
  destruct Hin' as [->|Hin'].
  - now rewrite Hnone.
  - destruct (guess_type ("a." +s x)); [|reflexivity].
    cbn [rbind]. now apply IH.
Qed.

(** C6, as the code has it.  When the lookup finds a non-empty type for
    each of the six extensions of the first loop, the manifest is produced
    and: an extension outside the fixed ones for which the lookup gives
    nothing (or an empty type) has no [Default] element; the two hard-coded
    extensions are declared with their hard-coded types, whatever the
    lookup says; every [Default] element has a non-empty content type; and
    every declared extension is a fixed one or the extension of a
    resource. *)
Theorem unknown_resource_types_skipped (fnames : list string) :
  fixed_types_nonempty ->
  exists root,
    contenttypes_root fnames = Ok root
    /\ (forall ext,
          ~ In ext (looked_up_extensions ++ map fst fixed_defaults) ->
          Py.truthy (guess_type ("a." +s ext)) = false ->
          ~ In (Some ext) (default_exts root))
    /\ (forall em, In em fixed_defaults ->
          In (Some (fst em), Some (snd em)) (default_entries root))
    /\ Forall (fun en => exists mt, snd en = Some mt /\ mt <> "")
              (default_entries root)
    /\ (forall ext, In (Some ext) (default_exts root) ->
          In ext (looked_up_extensions ++ map fst fixed_defaults)
          \/ exists fname, In fname fnames
                           /\ ext = snd (Py.rpartition extsep fname)).
Proof.
  intros Hne.
  destruct (contenttypes_root_defaults fnames (nonempty_known Hne))
    as (root & img & Hroot & Hentries & Hnd & Hall).
  assert (Hsix : forall x, In x (iter_order looked_up_extensions) ->
                           In x looked_up_extensions).
  { intros x. apply Permutation_in, iter_order_perm. }
  assert (Hfix : forall em, In em (Dict.iteritems fixed_defaults) ->
                            In em fixed_defaults).
  { intros em. apply Permutation_in, DictFacts.iteritems_perm. }
  assert (Hexts : forall ext, In (Some ext) (default_exts root) ->
            In ext looked_up_extensions
            \/ In ext (map fst fixed_defaults)
            \/ exists en, In en img /\ fst en = ext).
  { intros ext Hin. unfold default_exts in Hin.
    rewrite Hentries, map_map in Hin. cbn [fst] in Hin.
    apply in_map_iff in Hin. destruct Hin as [en [[= <-] Hin]].
    apply in_app_or in Hin. destruct Hin as [Hin|Hin].
    - apply in_map_iff in Hin. destruct Hin as [x [<- Hx]].
      left. now apply Hsix.
    - apply in_app_or in Hin. destruct Hin as [Hin|Hin].
      + right. left. now apply in_map, Hfix.
      + right. right. now exists en. }
  exists root. split; [exact Hroot|]. repeat apply conj.
  - intros ext Hout Hfalse Hin.
    destruct (Hexts ext Hin) as [H|[H|[en [Hen <-]]]].
    + apply Hout, in_or_app. now left.
    + apply Hout, in_or_app. now right.
    + destruct (Hall en Hen) as (_ & Hg & Hmt & _).
      rewrite Hg, truthy_Some in Hfalse by exact Hmt. discriminate.
  - intros em Hin. rewrite Hentries.
    apply (in_map (fun en => (Some (fst en), Some (snd en)))).
    apply in_or_app. right. apply in_or_app. left.
    eapply Permutation_in; [symmetry; apply DictFacts.iteritems_perm | exact Hin].
  - rewrite Hentries. apply Forall_forall.
    intros x Hin. apply in_map_iff in Hin. destruct Hin as [en [<- Hin]].
    exists (snd en). split; [reflexivity|].
    apply in_app_or in Hin. destruct Hin as [Hin|Hin].
    + apply in_map_iff in Hin. destruct Hin as [ext [<- Hx]].
      apply truthy_type_of_ext, Hne, Hsix, Hx.
    + apply in_app_or in Hin. destruct Hin as [Hin|Hin].
      * apply Hfix in Hin. simpl in Hin.
        destruct Hin as [<-|[<-|[]]]; discriminate.
      * apply (Hall en Hin).
  - intros ext Hin.
    destruct (Hexts ext Hin) as [H|[H|[en [Hen <-]]]].
    + left. apply in_or_app. now left.
    + left. apply in_or_app. now right.
    + right. apply (Hall en Hen).
Qed.

End ManifestFacts.

Lemma ref_types_nonempty : @fixed_types_nonempty env_fifo.
Proof.
  intros ext Hin. simpl in Hin.
  destruct Hin as [<-|[<-|[<-|[<-|[<-|[<-|[]]]]]]]; reflexivity.
Defined.

Lemma ref_types_known : @fixed_types_known env_fifo.
Proof.
  intros ext Hin. simpl in Hin.
  destruct Hin as [<-|[<-|[<-|[<-|[<-|[<-|[]]]]]]]; discriminate.
Defined.

(** Witness of C3: resources with and without an extension separator. *)
Lemma contenttypes_no_duplicate_defaults_witness :
  @fixed_types_known env_fifo
  /\ exists root,
       @contenttypes_root env_fifo
         ["word/media/cover.png"; "README"; "notes.txt"; "word/media/back.png"]
       = Ok root
       /\ NoDup (@default_exts env_fifo root).
Proof.
  split; [exact ref_types_known|].
  destruct (@contenttypes_no_duplicate_defaults env_fifo
              ["word/media/cover.png"; "README"; "notes.txt"; "word/media/back.png"]
              ref_types_known) as (root & Hroot & Hnd & _).
  exists root. split; [exact Hroot | exact Hnd].
Defined.

(** A name without a separator is its own extension. *)
Example rpartition_README :
  Py.rpartition extsep "README" = ("", "", "README")
  /\ Py.rpartition extsep "a.tar.gz" = ("a.tar", ".", "gz").
Proof. split; reflexivity. Qed.

Example contenttypes_README :
  exists root,
    @contenttypes_root env_fifo ["README"; "cover.png"; "font.odttf"; "x.png"] = Ok root
    /\ @default_exts env_fifo root
       = map Some ["png"; "gif"; "jpeg"; "jpg"; "svg"; "xml"; "rels"; "odttf"].
Proof. eexists. split; [vm_compute; reflexivity | vm_compute; reflexivity]. Qed.

(** C6, as stated, fails.  The lookup of the reference environment finds
    no type for [odttf] or [rels]; the manifest of an assembler without any
    resource declares both all the same, with their hard-coded types. *)
Lemma hard_coded_defaults_not_skipped :
  @guess_type env_fifo ("a." +s "odttf") = None
  /\ @guess_type env_fifo ("a." +s "rels") = None
  /\ exists root,
       @contenttypes_root env_fifo [] = Ok root
       /\ In (Some "odttf") (@default_exts env_fifo root)
       /\ In (Some "rels") (@default_exts env_fifo root).
Proof.
  split; [reflexivity|]. split; [reflexivity|].
  eexists. split; [vm_compute; reflexivity|].
  split; vm_compute; tauto.
Qed.

(** Witness of the amended C6. *)
Lemma unknown_resource_types_skipped_witness :
  @fixed_types_nonempty env_fifo
  /\ exists root,
       @contenttypes_root env_fifo ["README"; "cover.png"; "notes.txt"] = Ok root
       /\ ~ In (Some "README") (@default_exts env_fifo root)
       /\ ~ In (Some "txt") (@default_exts env_fifo root).
Proof.
  split; [exact ref_types_nonempty|].
  destruct (@unknown_resource_types_skipped env_fifo
              ["README"; "cover.png"; "notes.txt"] ref_types_nonempty)
    as (root & Hroot & Hskip & _).
  exists root. split; [exact Hroot|].
  split; apply Hskip; try reflexivity;
    simpl; intuition discriminate.
Defined.

(** ** The timestamp of the core properties *)

Lemma rsplit_none_app c a b :
  Py.rsplit_chr c a = None -> Py.rsplit_chr c b = None ->
  Py.rsplit_chr c (a +s b) = None.
Proof.
  intros Ha Hb. induction a as [|x a IH]; simpl in *; [exact Hb|].
  destruct (Py.rsplit_chr c a) as [[h t]|]; [discriminate|].
  rewrite IH by reflexivity.
  destruct (Ascii.eqb x c); [discriminate | reflexivity].
Qed.

(** The text before and after the last separator. *)
Lemma rsplit_last c a b :
  Py.rsplit_chr c b = None ->
  Py.rsplit_chr c (a +s String c b) = Some (a, b).
Proof.
  intros Hb. induction a as [|x a IH]; simpl.
  - now rewrite Hb, Ascii.eqb_refl.
  - now rewrite IH.
Qed.

Lemma no_dot_uint d : Py.rsplit_chr "." (NilEmpty.string_of_uint d) = None.
Proof. induction d; simpl; try rewrite IHd; reflexivity. Qed.

Lemma no_dot_zeros k : Py.rsplit_chr "." (Py.zeros k) = None.
Proof. induction k as [|k IH]; simpl; [|rewrite IH]; reflexivity. Qed.

Lemma no_dot_fmt w n : Py.rsplit_chr "." (Py.fmt_0d w n) = None.
Proof.
  unfold Py.fmt_0d, Py.str_of_nat.
  apply rsplit_none_app; [apply no_dot_zeros | apply no_dot_uint].
Qed.

Ltac no_dot :=
  repeat first [ apply no_dot_fmt
               | reflexivity
               | apply rsplit_none_app ].

Lemma no_dot_offset off : Py.rsplit_chr "." (format_offset off) = None.
Proof. unfold format_offset. destruct (Z.ltb off 0); no_dot. Qed.

Lemma no_dot_to_the_second now : Py.rsplit_chr "." (to_the_second now) = None.
Proof. unfold to_the_second. no_dot. Qed.

Lemma append_empty_r s : s +s "" = s.
Proof. induction s as [|x s IH]; simpl; [reflexivity | now rewrite IH]. Qed.

Lemma isoformat_whole_second now :
  microsecond now = 0 ->
  isoformat "T" now
  = to_the_second now
    +s match utcoffset now with Some off => format_offset off | None => "" end.
Proof.
  intros Hus. unfold isoformat, format_time, to_the_second. rewrite Hus.
  cbn [Nat.eqb].
  destruct (utcoffset now); rewrite ?append_empty_r;
    repeat (rewrite !append_assoc; cbn [String.append]);
    reflexivity.
Qed.

Lemma isoformat_fraction now :
  microsecond now <> 0 ->
  isoformat "T" now
  = to_the_second now
    +s String "." (Py.fmt_0d 6 (microsecond now)
                   +s match utcoffset now with
                      | Some off => format_offset off
                      | None => ""
                      end).
Proof.
  intros Hus. unfold isoformat, format_time, to_the_second.
  apply Nat.eqb_neq in Hus. rewrite Hus.
  destruct (utcoffset now); rewrite ?append_empty_r;
    repeat (rewrite !append_assoc; cbn [String.append]);
    reflexivity.
Qed.

(** On a whole second the standard library prints no fraction, there is no
    separator to split at, and the head of the split is empty. *)
Lemma timestamp_whole_second now :
  microsecond now = 0 -> timestamp now = "Z".
Proof.
  intros Hus. unfold timestamp, Py.rpartition.
  rewrite isoformat_whole_second by exact Hus.
  rewrite rsplit_none_app; [reflexivity | apply no_dot_to_the_second |].
  destruct (utcoffset now); [apply no_dot_offset | reflexivity].
Qed.

(** Off a whole second the fraction is cut and the instant is printed to
    the second. *)
Lemma timestamp_fraction now :
  microsecond now <> 0 -> timestamp now = to_the_second now +s "Z".
Proof.
  intros Hus. unfold timestamp, Py.rpartition.
  rewrite isoformat_fraction by exact Hus.
  rewrite rsplit_last; [reflexivity|].
  apply rsplit_none_app; [apply no_dot_fmt|].
  destruct (utcoffset now); [apply no_dot_offset | reflexivity].
Qed.

Section DateFacts.
Context `{Ext : Externals}.

Lemma last_d_ne t ns name :
  last_chr t = Some "d"%char -> name <> "" ->
  last_chr name <> Some "d"%char ->
  t <> clark (namespaces ns) name.
Proof.
  intros Ht Hname Hlast E. subst t.
  rewrite last_chr_clark in Ht by exact Hname. contradiction.
Qed.

(** [update_doc_props] leaves the elements of a name ending in [d] alone:
    none of the names it sets ends so. *)
Lemma find_all_update_dates t root m :
  last_chr t = Some "d"%char ->
  find_all t (snd (update_doc_props root m)) = find_all t root.
Proof.
  intros Ht. apply update_keeps_foreign.
  assert (Hne : forall ns name, name <> "" -> last_chr name <> Some "d"%char ->
            String.eqb t (clark (namespaces ns) name) = false)
    by (intros ns name H1 H2; apply String.eqb_neq, last_d_ne; assumption).
  unfold sets_property, properties_set.
  destruct (Py.nonempty (tags m)), (Py.truthy (comments m)),
    (Py.nonempty (languages m));
    cbn [app existsb]; rewrite !Hne by discriminate; reflexivity.
Qed.

Lemma date_tag_last x :
  x = "created" \/ x = "modified" ->
  last_chr (clark (namespaces "dcterms") x) = Some "d"%char.
Proof. intros [->| ->]; rewrite last_chr_clark by discriminate; reflexivity. Qed.

(** The two date elements of the core properties: one of each name, both
    with the same text and the W3CDTF type attribute. *)
Lemma convert_metadata_dates now m x :
  x = "created" \/ x = "modified" ->
  find_all (clark (namespaces "dcterms") x) (convert_metadata_root now m)
  = [date_element now x].
Proof.
  intros Hx. unfold convert_metadata_root.
  rewrite find_all_update_dates by (apply date_tag_last; exact Hx).
  unfold find_all, core_properties_base. cbn [fold_left].
  rewrite !children_append, children_E. cbn [app filter tag E].
  assert (Hcp : forall name, name <> "" -> last_chr name <> Some "d"%char ->
            String.eqb (clark (namespaces "cp") name)
                       (clark (namespaces "dcterms") x) = false).
  { intros name H1 H2. apply String.eqb_neq. intros E. symmetry in E. revert E.
    apply last_d_ne; [apply date_tag_last; exact Hx | exact H1 | exact H2]. }
  rewrite !Hcp by discriminate.
  destruct Hx as [->| ->].
  - rewrite String.eqb_refl.
    replace (String.eqb (clark (namespaces "dcterms") "modified")
                        (clark (namespaces "dcterms") "created")) with false.
    + reflexivity.
    + symmetry. apply String.eqb_neq. intros E.
      apply clark_same_uri in E. discriminate.
  - rewrite String.eqb_refl.
    replace (String.eqb (clark (namespaces "dcterms") "created")
                        (clark (namespaces "dcterms") "modified")) with false.
    + reflexivity.
    + symmetry. apply String.eqb_neq. intros E.
      apply clark_same_uri in E. discriminate.
Qed.

(** C5 on the code, at a whole second.  When the clock reads an instant
    with no microseconds, the created and modified elements both hold the
    bare text [Z]: the date and the time are lost. *)
Theorem convert_metadata_whole_second (now : datetime) (m : Metadata) :
  microsecond now = 0 ->
  map text (find_all (clark (namespaces "dcterms") "created")
                     (convert_metadata_root now m)) = [Some "Z"]
  /\ map text (find_all (clark (namespaces "dcterms") "modified")
                        (convert_metadata_root now m)) = [Some "Z"].
Proof.
  intros Hus.
  rewrite !convert_metadata_dates by tauto.
  unfold date_element. cbn [map text].
  now rewrite timestamp_whole_second.
Qed.

(** Off a whole second both elements hold the instant to the second
    followed by [Z], and carry the W3CDTF type attribute. *)
Lemma convert_metadata_fraction (now : datetime) (m : Metadata) (x : string) :
  microsecond now <> 0 ->
  x = "created" \/ x = "modified" ->
  find_all (clark (namespaces "dcterms") x) (convert_metadata_root now m)
  = [Element (clark (namespaces "dcterms") x)
             [(clark (namespaces "xsi") "type", "dcterms:W3CDTF")]
             (Some (to_the_second now +s "Z")) []].
Proof.
  intros Hus Hx. rewrite convert_metadata_dates by exact Hx.
  unfold date_element. now rewrite timestamp_fraction.
Qed.

End DateFacts.

(** The failing input of C5. *)
Lemma convert_metadata_whole_second_witness :
  microsecond noon_sharp = 0
  /\ isoformat "T" noon_sharp = "2013-06-01T12:00:00+00:00"
  /\ map text (find_all (clark (@namespaces env_fifo "dcterms") "created")
                        (@convert_metadata_root env_fifo noon_sharp sample_record))
     = [Some "Z"]
  /\ map text (find_all (clark (@namespaces env_fifo "dcterms") "modified")
                        (@convert_metadata_root env_fifo noon_sharp sample_record))
     = [Some "Z"].
Proof.
  split; [reflexivity|]. split; [reflexivity|].
  exact (@convert_metadata_whole_second env_fifo noon_sharp sample_record eq_refl).
Defined.

Example timestamp_with_fraction :
  timestamp {| year := 2013; month := 6; day := 1;
               hour := 12; minute := 0; second := 0; microsecond := 4000;
               utcoffset := Some 0%Z |}
  = "2013-06-01T12:00:00Z".
Proof. reflexivity. Qed.

(** ** The application properties *)

Section AppFacts.
Context `{Ext : Externals}.

Lemma appproperties_outline m :
  outline (appproperties_root m)
  = [ (clark (namespaces "ep") "Application", Some appname);
      (clark (namespaces "ep") "AppVersion", Some app_version);
      (clark (namespaces "ep") "DocSecurity", Some "0");
      (clark (namespaces "ep") "HyperlinksChanged", Some "false");
      (clark (namespaces "ep") "LinksUpToDate", Some "true");
      (clark (namespaces "ep") "ScaleCrop", Some "false");
      (clark (namespaces "ep") "SharedDoc", Some "false") ]
    ++ (if Py.truthy (publisher m)
        then [(clark (namespaces "ep") "Company", publisher m)]
        else []).
Proof.
  unfold outline, appproperties_root.
  destruct (Py.truthy (publisher m)).
  - rewrite children_append. reflexivity.
  - reflexivity.
Qed.

Lemma company_elements m :
  map text (find_all (clark (namespaces "ep") "Company") (appproperties_root m))
  = if Py.truthy (publisher m) then [publisher m] else [].
Proof.
  assert (Hbase : find_all (clark (namespaces "ep") "Company") appproperties_base = []).
  { unfold find_all, appproperties_base. rewrite children_E.
    cbn [filter tag E].
    repeat match goal with
           | |- context [String.eqb (clark ?u ?n) (clark ?u "Company")] =>
               replace (String.eqb (clark u n) (clark u "Company")) with false
                 by (symmetry; apply String.eqb_neq; intros E;
                     apply clark_same_uri in E; discriminate)
           end.
    reflexivity. }
  unfold appproperties_root.
  destruct (Py.truthy (publisher m)).
  - unfold find_all in *. rewrite children_append, filter_app, Hbase.
    cbn [filter tag E app]. now rewrite String.eqb_refl.
  - now rewrite Hbase.
Qed.

Lemma truthy_iff o : Py.truthy o = true <-> exists s, o = Some s /\ s <> "".
Proof.
  destruct o as [[|c s]|]; simpl; split; try discriminate.
  - intros [s [[= <-] Hs]]. contradiction.
  - intros _. eexists. split; [reflexivity | discriminate].
  - reflexivity.
  - intros [s [E _]]. discriminate.
Qed.

(** C9, as the code has it.  The application properties hold, in this
    order, the application name, its version, DocSecurity 0,
    HyperlinksChanged false, LinksUpToDate true, ScaleCrop false and
    SharedDoc false; a Company element follows exactly when the publisher
    is a non-empty string, and then holds it. *)
Theorem appproperties_contents (m : Metadata) :
  outline (appproperties_root m)
  = [ (clark (namespaces "ep") "Application", Some appname);
      (clark (namespaces "ep") "AppVersion", Some app_version);
      (clark (namespaces "ep") "DocSecurity", Some "0");
      (clark (namespaces "ep") "HyperlinksChanged", Some "false");
      (clark (namespaces "ep") "LinksUpToDate", Some "true");
      (clark (namespaces "ep") "ScaleCrop", Some "false");
      (clark (namespaces "ep") "SharedDoc", Some "false") ]
    ++ (if Py.truthy (publisher m)
        then [(clark (namespaces "ep") "Company", publisher m)]
        else [])
  /\ (find_all (clark (namespaces "ep") "Company") (appproperties_root m) <> []
      <-> exists s, publisher m = Some s /\ s <> "")
  /\ map text (find_all (clark (namespaces "ep") "Company") (appproperties_root m))
     = (if Py.truthy (publisher m) then [publisher m] else [])
  /\ forall w, mi (self w) = Some m ->
               appproperties w = (Ok (xml2str (appproperties_root m)), w).
Proof.
  split; [apply appproperties_outline|].
  pose proof (company_elements m) as Hc.
  split; [|split; [exact Hc|]].
  - rewrite <- truthy_iff.
    destruct (Py.truthy (publisher m)); split; intros H.
    + reflexivity.
    + intros E. rewrite E in Hc. discriminate.
    + destruct (find_all _ _); [contradiction | discriminate].
    + discriminate.
  - intros w Hmi. unfold appproperties, bind, getattr, ret. now rewrite Hmi.
Qed.

End AppFacts.

(** C9, as stated, fails.  A record whose publisher is the empty string
    has a publisher, and its application properties have no Company
    element. *)
Lemma empty_publisher_no_company :
  publisher unnamed_publisher = Some ""
  /\ find_all (clark (@namespaces env_fifo "ep") "Company")
              (@appproperties_root env_fifo unnamed_publisher) = [].
Proof. split; reflexivity. Qed.

(** Witness of the amended C9: a record with a publisher. *)
Lemma appproperties_contents_witness :
  publisher named_publisher = Some "Acme Press"
  /\ map text (find_all (clark (@namespaces env_fifo "ep") "Company")
                        (@appproperties_root env_fifo named_publisher))
     = [Some "Acme Press"].
Proof.
  split; [reflexivity|].
  exact (proj1 (proj2 (proj2 (@appproperties_contents env_fifo named_publisher)))).
Defined.

(** ** Writing the archive *)

Section WriteFacts.
Context `{Ext : Externals}.

Lemma bind_ok {A B} (m : M A) (k : A -> M B) w a w' :
  m w = (Ok a, w') -> bind m k w = k a w'.
Proof. unfold bind. now intros ->. Qed.

Lemma appproperties_ok w m :
  mi (self w) = Some m ->
  appproperties w = (Ok (xml2str (appproperties_root m)), w).
Proof.
  intros Hmi. unfold appproperties, bind, getattr, ret. now rewrite Hmi.
Qed.

(** Without [mi] the property raises, and nothing else happens. *)
Lemma appproperties_no_mi w :
  mi (self w) = None ->
  appproperties w = (Raise (AttributeError "mi"), w).
Proof.
  intros Hmi. unfold appproperties, bind, getattr. now rewrite Hmi.
Qed.

Lemma convert_metadata_ok now oeb w :
  convert_metadata now oeb w
  = (Ok (xml2str (convert_metadata_root now (to_book_metadata oeb))),
     snd (set_mi (to_book_metadata oeb) w)).
Proof.
  unfold convert_metadata, bind, lift, ret, set_mi.
  now rewrite update_outcome, book_metadata_accepted.
Qed.

(** The loop over the images, when every accessor gives its bytes. *)
Lemma images_loop_ok (items : list (string * getter)) : forall w,
  Forall (fun item => exists data, snd item = Ok data) items ->
  for_each items
    (fun item => bind (call_getter (fst item) (snd item))
                      (fun data => writestr (fst item) data)) w
  = (Ok tt,
     {| self := self w;
        zf := zf w ++ map (fun item => (fst item, getter_data (snd item))) items;
        called := called w ++ map fst items |}).
Proof.
  induction items as [|[fname g] items IH]; intros w Hall.
  - simpl. unfold ret. rewrite !app_nil_r. now destruct w.
  - inversion Hall as [|? ? [data Hdata] Hall']; subst.
    simpl in Hdata. subst g.
    cbn [for_each]. unfold bind at 1.
    unfold bind at 1, call_getter, writestr. cbn [fst snd self zf called].
    rewrite IH by exact Hall'. cbn [self zf called map fst snd getter_data].
    now rewrite <- !app_assoc.
Qed.

(** The loop over the fonts. *)
Lemma fonts_loop_ok (items : list (string * string)) : forall w,
  for_each items (fun item => writestr (fst item) (snd item)) w
  = (Ok tt,
     {| self := self w; zf := zf w ++ items; called := called w |}).
Proof.
  induction items as [|[fname data] items IH]; intros w.
  - simpl. unfold ret. rewrite app_nil_r. now destruct w.
  - cbn [for_each]. unfold bind at 1, writestr at 1. cbn [fst snd].
    rewrite IH. cbn [self zf called]. now rewrite <- app_assoc.
Qed.

(** The first four steps of [write]. *)
Ltac write_head :=
  unfold run_write, write;
  unfold bind at 1; unfold bind at 1;
  erewrite contenttypes_run by (cbn [self]; eassumption);
  unfold writestr at 1; cbn [self zf called];
  unfold bind at 1; unfold writestr at 1; cbn [self zf called];
  unfold bind at 1; unfold bind at 1;
  rewrite convert_metadata_ok;
  unfold writestr at 1; cbn [self zf called set_mi snd];
  unfold bind at 1; unfold bind at 1;
  erewrite appproperties_ok by reflexivity;
  unfold writestr at 1; cbn [self zf called app].

(** A step that reads an attribute of the assembler and writes an entry. *)
Ltac write_attr H :=
  unfold bind at 1; unfold bind at 1; unfold getattr at 1;
  cbn [self document styles images]; rewrite H;
  try (unfold writestr at 1; cbn [self zf called]).

Ltac write_field :=
  unfold bind at 1; unfold bind at 1; unfold get_self at 1;
  cbn [self font_table document_relationships embedded_fonts fonts];
  unfold writestr at 1; cbn [self zf called].

Lemma write_run (d : DOCX) (now : datetime) (oeb : OEBBook)
    (imgs : Dict.dict string getter) (doc sty types : element) :
  images d = Some imgs ->
  document d = Some doc ->
  styles d = Some sty ->
  contenttypes_root (Dict.iterkeys imgs) = Ok types ->
  Forall (fun item => exists data, snd item = Ok data) (Dict.iteritems imgs) ->
  exists w',
    run_write d now oeb = (Ok tt, w')
    /\ zf w' = leading_parts now oeb types ++ word_parts d doc sty
               ++ map (fun item => (fst item, getter_data (snd item)))
                      (Dict.iteritems imgs)
               ++ Dict.iteritems (fonts d)
    /\ called w' = map fst (Dict.iteritems imgs).
Proof.
  intros Himgs Hdoc Hsty Htypes Hget.
  write_head.
  unfold bind at 1; unfold writestr at 1; cbn [self zf called].
  write_attr Hdoc. write_attr Hsty.
  write_field. write_field. write_field.
  write_attr Himgs.
  rewrite images_loop_ok by exact Hget. cbn [self zf called].
  unfold bind at 1, get_self. cbn [self fonts].
  rewrite fonts_loop_ok. cbn [self zf called].
  eexists. split; [reflexivity|]. cbn [zf called].
  split; [|reflexivity].
  unfold leading_parts, word_parts. rewrite <- !app_assoc. reflexivity.
Qed.

Lemma appends_ret {A} (a : A) : appends_only (ret a).
Proof. intros w. exists []. simpl. now rewrite app_nil_r. Qed.

Lemma appends_writestr name data : appends_only (writestr name data).
Proof. intros w. now eexists. Qed.

Lemma appends_getattr {A} name (field : DOCX -> option A) :
  appends_only (getattr name field).
Proof.
  intros w. exists []. unfold getattr.
  destruct (field (self w)); simpl; now rewrite app_nil_r.
Qed.

Lemma appends_get_self {A} (field : DOCX -> A) : appends_only (get_self field).
Proof. intros w. exists []. simpl. now rewrite app_nil_r. Qed.

Lemma appends_call_getter fname g : appends_only (call_getter fname g).
Proof. intros w. exists []. simpl. now rewrite app_nil_r. Qed.

Lemma appends_bind {A B} (m : M A) (k : A -> M B) :
  appends_only m -> (forall a, appends_only (k a)) -> appends_only (bind m k).
Proof.
  intros Hm Hk w. unfold bind.
  destruct (Hm w) as [r1 H1].
  destruct (m w) as [[a|e] w1]; simpl in H1.
  - destruct (Hk a w1) as [r2 H2]. exists (r1 ++ r2).
    now rewrite H2, H1, app_assoc.
  - now exists r1.
Qed.

Lemma appends_for_each {A} (l : list A) (body : A -> M unit) :
  (forall x, appends_only (body x)) -> appends_only (for_each l body).
Proof.
  intros Hb. induction l as [|x l IH]; simpl.
  - apply appends_ret.
  - apply appends_bind; [apply Hb | intros _; exact IH].
Qed.

Ltac appends :=
  repeat first [ apply appends_writestr
               | apply appends_getattr
               | apply appends_get_self
               | apply appends_call_getter
               | apply appends_ret
               | apply appends_for_each; intros ?
               | apply appends_bind; [|intros ?] ].

(** Whatever happens after the fourth entry, the first four stay. *)
Lemma write_leading (d : DOCX) (now : datetime) (oeb : OEBBook)
    (imgs : Dict.dict string getter) (types : element) :
  images d = Some imgs ->
  contenttypes_root (Dict.iterkeys imgs) = Ok types ->
  exists rest,
    zf (snd (run_write d now oeb)) = leading_parts now oeb types ++ rest.
Proof.
  intros Himgs Htypes.
  write_head.
  match goal with
  | |- context [bind ?m ?k ?w] =>
      assert (Htail : appends_only (bind m k)) by appends;
      destruct (Htail w) as [rest Hrest]; exists rest; exact Hrest
  end.
Qed.

(** C8. On an assembler whose images, document and styles are set, whose
    six looked-up types are known and whose accessors all give their
    bytes, [write] succeeds: the archive holds the ten fixed entries, then
    one entry per image, then one per font, each under its registered
    name, in the order of enumeration; the accessors called are those of
    the images, in that order, and, the names of a dict being distinct,
    each exactly once. *)
Theorem write_archive (d : DOCX) (now : datetime) (oeb : OEBBook)
    (imgs : Dict.dict string getter) (doc sty : element) :
  images d = Some imgs ->
  document d = Some doc ->
  styles d = Some sty ->
  fixed_types_known ->
  NoDup (Dict.keys imgs) ->
  Forall (fun item => exists data, snd item = Ok data) imgs ->
  exists types w',
    contenttypes_root (Dict.iterkeys imgs) = Ok types
    /\ run_write d now oeb = (Ok tt, w')
    /\ zf w' = leading_parts now oeb types ++ word_parts d doc sty
               ++ map (fun item => (fst item, getter_data (snd item)))
                      (Dict.iteritems imgs)
               ++ Dict.iteritems (fonts d)
    /\ map fst (zf w')
       = fixed_names ++ Dict.iterkeys imgs ++ Dict.iterkeys (fonts d)
    /\ called w' = Dict.iterkeys imgs
    /\ forall fname, In fname (Dict.keys imgs) ->
                     count_occ string_dec (called w') fname = 1.
Proof.
  intros Himgs Hdoc Hsty Hknown Hnd Hget.
  destruct (contenttypes_root_defaults (Dict.iterkeys imgs) Hknown)
    as (types & _ & Htypes & _).
  assert (Hget' : Forall (fun item : string * getter =>
                            exists data, snd item = Ok data)
                         (Dict.iteritems imgs)).
  { rewrite Forall_forall in *. intros item Hin. apply Hget.
    eapply Permutation_in; [apply DictFacts.iteritems_perm | exact Hin]. }
  destruct (write_run d now oeb imgs doc sty types Himgs Hdoc Hsty Htypes Hget')
    as (w' & Hrun & Hzf & Hcalled).
  exists types, w'.
  split; [exact Htypes|]. split; [exact Hrun|]. split; [exact Hzf|].
  split; [|split; [exact Hcalled|]].
  - rewrite Hzf, !map_app, map_map. reflexivity.
  - intros fname Hin. rewrite Hcalled.
    apply NoDup_count_occ'.
    + now apply DictFacts.iteritems_keys_nodup.
    + eapply Permutation_in; [|exact Hin].
      symmetry. apply DictFacts.keys_perm, DictFacts.iteritems_perm.
Qed.

(** C10. On a fresh assembler [appproperties] raises for want of [mi];
    after [convert_metadata] it returns the properties of the record that
    [convert_metadata] stored; the properties themselves never change the
    assembler; and [write], whatever [mi] was before, writes the core
    properties and then the application properties of the record just
    stored, as third and fourth entry. *)
Theorem appproperties_after_convert_metadata :
  (forall z c,
     mi DOCX_init = None
     /\ appproperties {| self := DOCX_init; zf := z; called := c |}
        = (Raise (AttributeError "mi"),
           {| self := DOCX_init; zf := z; called := c |}))
  /\ (forall w now oeb,
        exists w',
          convert_metadata now oeb w
          = (Ok (xml2str (convert_metadata_root now (to_book_metadata oeb))), w')
          /\ mi (self w') = Some (to_book_metadata oeb)
          /\ appproperties w'
             = (Ok (xml2str (appproperties_root (to_book_metadata oeb))), w'))
  /\ (forall w, snd (contenttypes w) = w /\ snd (appproperties w) = w)
  /\ (forall d now oeb imgs types,
        images d = Some imgs ->
        contenttypes_root (Dict.iterkeys imgs) = Ok types ->
        exists rest,
          zf (snd (run_write d now oeb)) = leading_parts now oeb types ++ rest).
Proof.
  split; [|split; [|split]].
  - intros z c. split; [reflexivity|]. now apply appproperties_no_mi.
  - intros w now oeb. eexists. split; [apply convert_metadata_ok|].
    split; [reflexivity|]. now apply appproperties_ok.
  - intros w. split.
    + unfold contenttypes, bind, getattr, lift, ret.
      destruct declare_fixed; [|reflexivity].
      destruct (images (self w)); reflexivity.
    + unfold appproperties, bind, getattr, ret.
      destruct (mi (self w)); reflexivity.
  - intros d now oeb imgs types. apply write_leading.
Qed.

End WriteFacts.

(** Witness of C8: the sample assembler in the reference environment. *)
Lemma write_archive_witness :
  images sample_docx = Some sample_images
  /\ NoDup (Dict.keys sample_images)
  /\ map fst (zf (snd (@run_write env_fifo sample_docx noon_sharp sample_record)))
     = fixed_names
       ++ ["word/media/cover.png"; "word/media/back.jpg"]
       ++ ["word/fonts/font1.odttf"]
  /\ called (snd (@run_write env_fifo sample_docx noon_sharp sample_record))
     = ["word/media/cover.png"; "word/media/back.jpg"].
Proof.
  assert (Hnd : NoDup (Dict.keys sample_images)).
  { simpl. repeat constructor; simpl; intuition discriminate. }
  assert (Hget : Forall (fun item : string * getter =>
                           exists data, snd item = Ok data) sample_images).
  { repeat constructor; simpl; eexists; reflexivity. }
  split; [reflexivity|]. split; [exact Hnd|].
  destruct (@write_archive env_fifo sample_docx noon_sharp sample_record
              sample_images (Element "document" [] None [])
              (Element "styles" [] None [])
              eq_refl eq_refl eq_refl ref_types_known Hnd Hget)
    as (types & w' & _ & Hrun & _ & Hnames & Hcalled & _).
  rewrite Hrun. cbn [snd]. split; [exact Hnames | exact Hcalled].
Defined.

(** On a fresh assembler [write] stops at the first part: the images were
    never set. *)
Example write_fresh_assembler :
  @run_write env_fifo (@DOCX_init env_fifo) noon_sharp sample_record
  = (Raise (AttributeError "images"),
     {| self := @DOCX_init env_fifo; zf := []; called := [] |}).
Proof. reflexivity. Qed.

(** An accessor that raises stops the writing; the accessors after it are
    not called. *)
Example write_failing_accessor :
  let d := {| document_relationships := document_relationships sample_docx;
              font_table := font_table sample_docx;
              embedded_fonts := embedded_fonts sample_docx;
              fonts := fonts sample_docx;
              images := Some [ ("a.png", Ok "A");
                               ("b.png", Raise (ResourceError "b.png"));
                               ("c.png", Ok "C") ];
              document := document sample_docx;
              styles := styles sample_docx;
              mi := None |} in
  fst (@run_write env_fifo d noon_sharp sample_record)
  = Raise (ResourceError "b.png")
  /\ called (snd (@run_write env_fifo d noon_sharp sample_record))
     = ["a.png"; "b.png"].
Proof. vm_compute. split; reflexivity. Qed.

(** * Further facts *)

(** ** Lookup and allocation in the registry *)

Section RegistryMore.
Context `{Ext : Externals}.

Lemma add_key_get_iff r k' k :
  get_id (snd (add_key r k')) k <> None <-> get_id r k <> None \/ k = k'.
Proof.
  destruct (get_id r k') as [i|] eqn:Hg.
  - rewrite (add_key_hit _ _ _ Hg). simpl. split; [tauto|].
    intros [H| ->]; [exact H | congruence].
  - rewrite (add_key_miss _ _ Hg). simpl.
    rewrite !get_id_rmap. simpl. rewrite DictFacts.get_app. simpl.
    destruct (Dict.get (rmap r) k) as [v|]; [split; [left|]; discriminate|].
    destruct (eq_dec k' k) as [->|Hne]; split.
    + now right.
    + discriminate.
    + contradiction.
    + intros [H| ->]; congruence.
Qed.

(** X1. After any sequence of calls on any registry, the lookup finds an
    identifier for exactly the keys that the registry had before or that
    one of the calls named; for every other key it returns [None]. *)
Theorem get_relationship_id_registered
    (r : DocumentRelationships) (calls : list Key) (k : Key) :
  get_id (add_all r calls) k <> None <-> get_id r k <> None \/ In k calls.
Proof.
  revert r. induction calls as [|k' calls IH]; intros r.
  - simpl. tauto.
  - rewrite add_all_cons, IH, add_key_get_iff. simpl.
    intuition congruence.
Qed.

Lemma add_key_len r k :
  Dict.len (rmap r) <= Dict.len (rmap (snd (add_key r k))) <= S (Dict.len (rmap r)).
Proof.
  destruct (get_id r k) as [i|] eqn:Hg.
  - rewrite (add_key_hit _ _ _ Hg). simpl. lia.
  - rewrite (add_key_miss _ _ Hg). unfold Dict.len. simpl.
    rewrite length_app. simpl. lia.
Qed.

Lemma add_all_len calls : forall r,
  Dict.len (rmap r) <= Dict.len (rmap (add_all r calls))
  <= Dict.len (rmap r) + List.length calls.
Proof.
  induction calls as [|k calls IH]; intros r.
  - simpl. lia.
  - rewrite add_all_cons. specialize (IH (snd (add_key r k))).
    pose proof (add_key_len r k). simpl. lia.
Qed.

(** X2. The identifiers of a registry are dense: after any calls, the
    entry inserted in [i]-th place holds rId<i>, so a registry of [n]
    entries holds exactly rId1 ... rId<n>, over pairwise distinct keys; no
    call removes an entry and a call adds at most one. *)
Theorem identifiers_dense (calls : list Key) :
  let r := add_all DocumentRelationships_init calls in
  map snd (rmap r) = map rid (seq 1 (Dict.len (rmap r)))
  /\ NoDup (Dict.keys (rmap r))
  /\ NoDup (map snd (rmap r))
  /\ Dict.len (rmap DocumentRelationships_init) <= Dict.len (rmap r)
     <= Dict.len (rmap DocumentRelationships_init) + List.length calls.
Proof.
  intros r. pose proof (reachable_ok calls) as Hok. fold r in Hok.
  split; [apply Hok|]. split; [apply Hok|].
  split; [now apply rmap_ok_values_nodup | apply add_all_len].
Qed.

(** X3. Registering a second image returns the identifier of the first
    exactly when it is the same target. *)
Theorem add_image_same_target_iff (calls : list Key) (t1 t2 : string) :
  let r := add_all DocumentRelationships_init calls in
  let first := add_image r t1 in
  fst (add_image (snd first) t2) = fst first <-> t1 = t2.
Proof.
  intros r first.
  change (add_image r t1) with (add_key r (t1, IMAGES, None)) in first.
  change (add_image (snd first) t2) with (add_key (snd first) (t2, IMAGES, None)).
  split.
  - intros Heq.
    set (r2 := snd (add_key (snd first) (t2, IMAGES, None))).
    assert (H1 : get_id r2 (t1, IMAGES, None) = Some (fst first)).
    { apply add_key_keeps. apply add_key_get. }
    assert (H2 : get_id r2 (t2, IMAGES, None) = Some (fst first)).
    { rewrite <- Heq. apply add_key_get. }
    assert (Hok : rmap_ok (rmap r2)).
    { apply add_key_ok, add_key_ok, reachable_ok. }
    rewrite get_id_rmap in H1, H2.
    apply DictFacts.get_Some_in in H1. apply DictFacts.get_Some_in in H2.
    pose proof (values_nodup_key_eq _ _ _ _ (rmap_ok_values_nodup _ Hok) H1 H2) as E.
    congruence.
  - intros <-. erewrite add_key_hit; [reflexivity | apply add_key_get].
Qed.

(** X4. Every element of the serialized relationships names a registered
    key and carries, as [Id], the identifier that the lookup returns for
    that key; it has a [TargetMode] attribute exactly when the key has a
    target mode. *)
Theorem serialize_ids_resolve (calls : list Key) :
  let r := add_all DocumentRelationships_init calls in
  Forall (fun e =>
            exists target rtype target_mode i,
              get_attr e "Target" = Some target
              /\ get_attr e "Type" = Some rtype
              /\ get_attr e "TargetMode" = target_mode
              /\ get_attr e "Id" = Some i
              /\ get_relationship_id r target rtype target_mode = Some i)
         (children (serialize_root r)).
Proof.
  intros r. rewrite serialize_children. apply Forall_forall.
  intros e Hin. apply in_map_iff in Hin.
  destruct Hin as [[[[t ty] m] i] [<- Hin]].
  destruct (relationship_element_view (t, ty, m) i) as (Hview & Hid & _).
  unfold rel_key, key_view in Hview. injection Hview as Ht Hty Hm.
  exists t, ty, m, i. repeat (split; [assumption|]).
  apply DictFacts.in_get_Some; [apply reachable_ok|].
  eapply Permutation_in; [apply DictFacts.iteritems_perm | exact Hin].
Qed.

End RegistryMore.

(** ** The whole effect of [update_doc_props] *)

Section UpdateMore.
Context `{Ext : Externals}.

Lemma others_of_elements ts (l : list (string * option string * string)) :
  incl (map step_tag l) ts -> others ts (map step_element l) = [].
Proof.
  induction l as [|[[name txt] ns] l IH]; intros Hincl; [reflexivity|].
  cbn [map step_tag step_element] in *. unfold others in *.
  cbn [filter tag].
  assert (H : existsb (String.eqb (clark (namespaces ns) name)) ts = true).
  { apply existsb_exists. exists (clark (namespaces ns) name).
    split; [apply Hincl; now left | apply String.eqb_refl]. }
  rewrite H. cbn [negb]. apply IH.
  intros x Hx. apply Hincl. now right.
Qed.

Lemma new_elements_are_attempted m :
  others (properties_attempted m) (new_elements m) = [].
Proof.
  apply others_of_elements. unfold properties_attempted.
  apply incl_map, accepted_incl.
Qed.

(** X5. One update leaves the root's own tag, attributes and text alone,
    keeps every child whose name it does not try to set, in the same order,
    and puts after them the elements it has set, in the fixed order title,
    creator, keywords, description, language.  It returns when lxml accepts
    every text of the record, and then every name it sets has its element;
    it raises [ValueError] at the first text that lxml refuses, with the
    elements of that name removed and nothing appended for it or for the
    names after it. *)
Theorem update_doc_props_children (root : element) (m : Metadata) :
  children (snd (update_doc_props root m))
  = others (properties_attempted m) (children root) ++ new_elements m
  /\ tag (snd (update_doc_props root m)) = tag root
  /\ attrib (snd (update_doc_props root m)) = attrib root
  /\ text (snd (update_doc_props root m)) = text root
  /\ fst (update_doc_props root m)
     = (if record_accepted m then Ok tt else Raise (ValueError not_xml))
  /\ (record_accepted m = true ->
      properties_attempted m = properties_set m
      /\ new_elements m = map step_element (property_steps m)).
Proof.
  split; [apply update_children|].
  destruct (update_shell root m) as (Ht & Ha & Hx).
  repeat (split; [assumption|]).
  split; [apply update_outcome|].
  intros Hok. unfold properties_attempted, new_elements.
  destruct (accepted_all _ Hok) as [-> ->].
  split; [apply property_steps_tags | reflexivity].
Qed.

(** X6. Updating twice with the same record gives the same document and
    the same outcome as updating once, also when the update raises. *)
Theorem update_doc_props_idempotent (root : element) (m : Metadata) :
  update_doc_props (snd (update_doc_props root m)) m = update_doc_props root m.
Proof.
  rewrite (surjective_pairing (update_doc_props (snd (update_doc_props root m)) m)).
  rewrite (surjective_pairing (update_doc_props root m)) at 3.
  f_equal; [now rewrite !update_outcome|].
  destruct (update_shell (snd (update_doc_props root m)) m) as (Ht & Ha & Hx).
  apply element_eta; trivial.
  rewrite !update_children.
  rewrite others_app, others_idem, new_elements_are_attempted, app_nil_r.
  reflexivity.
Qed.

End UpdateMore.

(** A comment with a form feed is refused at the fourth call: the title,
    the creator and the keywords are set, the old description is gone,
    and the old language stays, its call never being made. *)
Example update_refused_description :
  @update_doc_props env_fifo
    (Element "root" [] None
       [ Element "{http://purl.org/dc/elements/1.1/}description" []
                 (Some "old") [];
         Element "{http://purl.org/dc/elements/1.1/}language" []
                 (Some "fr") [] ])
    {| title := "Sample"; authors := ["A. Author"]; tags := ["x"; "y"];
       comments := Some (String "012" ""); languages := ["en"];
       publisher := None |}
  = (Raise (ValueError not_xml),
     Element "root" [] None
       [ Element "{http://purl.org/dc/elements/1.1/}language" []
                 (Some "fr") [];
         Element "{http://purl.org/dc/elements/1.1/}title" []
                 (Some "Sample") [];
         Element "{http://purl.org/dc/elements/1.1/}creator" []
                 (Some "A. Author") [];
         Element ("{http://schemas.openxmlformats.org/package/2006/metadata/"
                  +s "core-properties}keywords") []
                 (Some "x, y") [] ]).
Proof. reflexivity. Qed.

(** ** The core properties as a whole *)

Section CoreMore.
Context `{Ext : Externals}.

Lemma not_a_property uri name m :
  In name ["revision"; "lastModifiedBy"; "created"; "modified"] ->
  existsb (String.eqb (clark uri name)) (properties_set m) = false.
Proof.
  intros Hname. apply Bool.not_true_is_false. intros H.
  apply existsb_exists in H. destruct H as [t [Hin Heq]].
  apply String.eqb_eq in Heq. subst t.
  unfold properties_set in Hin.
  cbn [In] in Hname.
  destruct (Py.nonempty (tags m)), (Py.truthy (comments m)),
    (Py.nonempty (languages m));
    cbn [app In] in Hin;
    repeat (destruct Hin as [Hin|Hin];
            [ symmetry in Hin;
              repeat (destruct Hname as [<-|Hname]; [tag_ne|]);
              exact Hname | ]);
    exact Hin.
Qed.

Lemma not_attempted uri name m :
  In name ["revision"; "lastModifiedBy"; "created"; "modified"] ->
  existsb (String.eqb (clark uri name)) (properties_attempted m) = false.
Proof.
  intros Hname. eapply existsb_incl; [apply attempted_are_set|].
  now apply not_a_property.
Qed.

(** X7. The core properties hold, in this order: revision 1, the last
    modifier calibre, the created and the modified date with the same
    text, and then the elements of the record: title, creator, keywords
    when there are tags, description when there is a comment, language
    when there is one. *)
Theorem convert_metadata_contents (now : datetime) (m : Metadata) :
  outline (convert_metadata_root now m)
  = [ (clark (namespaces "cp") "revision", Some "1");
      (clark (namespaces "cp") "lastModifiedBy", Some "calibre");
      (clark (namespaces "dcterms") "created", Some (timestamp now));
      (clark (namespaces "dcterms") "modified", Some (timestamp now)) ]
    ++ map (fun c => (tag c, text c)) (new_elements m).
Proof.
  unfold outline, convert_metadata_root, core_properties_base.
  rewrite update_children. cbn [fold_left].
  rewrite !children_append, children_E. cbn [app].
  unfold others. cbn [filter tag E].
  rewrite !not_attempted by (simpl; tauto).
  cbn [negb]. rewrite map_app. reflexivity.
Qed.

(** X8. When the clock does not read a whole second, the created and the
    modified date both hold the instant to the second followed by [Z],
    without any fraction. *)
Theorem convert_metadata_to_the_second (now : datetime) (m : Metadata) :
  microsecond now <> 0 ->
  map text (find_all (clark (namespaces "dcterms") "created")
                     (convert_metadata_root now m))
  = [Some (to_the_second now +s "Z")]
  /\ map text (find_all (clark (namespaces "dcterms") "modified")
                        (convert_metadata_root now m))
     = [Some (to_the_second now +s "Z")]
  /\ Py.rsplit_chr "." (to_the_second now +s "Z") = None.
Proof.
  intros Hus.
  rewrite !convert_metadata_dates by tauto.
  unfold date_element. cbn [map text].
  rewrite timestamp_fraction by exact Hus.
  repeat split.
  apply rsplit_none_app; [apply no_dot_to_the_second | reflexivity].
Qed.

End CoreMore.

(** Witness of X8: a quarter past noon and four milliseconds. *)
Lemma convert_metadata_to_the_second_witness :
  microsecond {| year := 2013; month := 6; day := 1;
                 hour := 12; minute := 15; second := 0; microsecond := 4000;
                 utcoffset := Some 0%Z |} <> 0
  /\ map text (find_all (clark (@namespaces env_fifo "dcterms") "created")
                 (@convert_metadata_root env_fifo
                    {| year := 2013; month := 6; day := 1;
                       hour := 12; minute := 15; second := 0;
                       microsecond := 4000; utcoffset := Some 0%Z |}
                    sample_record))
     = [Some "2013-06-01T12:15:00Z"].
Proof.
  assert (H : 4000 <> 0) by discriminate.
  split; [exact H|].
  exact (proj1 (@convert_metadata_to_the_second env_fifo
                  {| year := 2013; month := 6; day := 1;
                     hour := 12; minute := 15; second := 0;
                     microsecond := 4000; utcoffset := Some 0%Z |}
                  sample_record H)).
Defined.

(** The record of a sample book: no keywords, no description. *)
Example core_properties_of_sample :
  map (fun c => (tag c, text c)) (@new_elements env_fifo sample_record)
  = [ ("{http://purl.org/dc/elements/1.1/}title", Some "Sample");
      ("{http://purl.org/dc/elements/1.1/}creator", Some "A. Author");
      ("{http://purl.org/dc/elements/1.1/}language", Some "en") ].
Proof. reflexivity. Qed.

(** ** More on the content-type manifest *)

Lemma rsplit_chr_spec c s : forall h t,
  Py.rsplit_chr c s = Some (h, t) ->
  s = h +s String c t /\ Py.rsplit_chr c t = None.
Proof.
  induction s as [|a s IH]; intros h t; simpl; [discriminate|].
  destruct (Py.rsplit_chr c s) as [[h' t']|] eqn:Hs.
  - intros [= <- <-]. destruct (IH h' t' eq_refl) as [-> Ht].
    split; [reflexivity | exact Ht].
  - destruct (Ascii.eqb_spec a c) as [->|Hne]; [|discriminate].
    intros [= <- <-]. split; [reflexivity | exact Hs].
Qed.

(** X11. The extension computed for a resource name has no separator in
    it; a name without a separator is its own extension, and any other
    name is a stem, the separator and the extension. *)
Theorem extension_of_name (fname : string) :
  Py.rsplit_chr extsep (extension_of fname) = None
  /\ ((Py.rsplit_chr extsep fname = None /\ extension_of fname = fname)
      \/ exists stem, fname = stem +s "." +s extension_of fname).
Proof.
  unfold extension_of, Py.rpartition.
  destruct (Py.rsplit_chr extsep fname) as [[h t]|] eqn:Hs; cbn [snd].
  - destruct (rsplit_chr_spec _ _ _ _ Hs) as [E Ht].
    split; [exact Ht|]. right. exists h. exact E.
  - split; [exact Hs|]. left. split; reflexivity.
Qed.

Section ManifestMore.
Context `{Ext : Externals}.

Lemma override_kwargs_nodup (pn mt : string) :
  NoDup (Dict.keys [("PartName", pn); ("ContentType", mt)]).
Proof. simpl. repeat constructor; simpl; intuition discriminate. Qed.

Lemma override_of_view pm :
  tag (override_of pm) = clark (namespaces "ct") "Override"
  /\ get_attr (override_of pm) "PartName" = Some (fst pm)
  /\ get_attr (override_of pm) "ContentType" = Some (snd pm).
Proof.
  unfold override_of.
  rewrite !E_get_attr by apply override_kwargs_nodup.
  repeat split.
Qed.

Lemma default_not_override en :
  String.eqb (tag (default_of en)) (clark (namespaces "ct") "Override") = false.
Proof.
  apply String.eqb_neq. destruct (default_of_view en) as (-> & _).
  intros E. apply clark_same_uri in E. discriminate.
Qed.

(** The state before the resources are looked at. *)
Lemma declare_fixed_children :
  fixed_types_known ->
  exists types added,
    declare_fixed = Ok (types, added)
    /\ children types
       = map override_of (Dict.iteritems override_parts)
         ++ map default_of
              (map (fun ext => (ext, type_of_ext ext))
                   (iter_order looked_up_extensions)
               ++ Dict.iteritems fixed_defaults)
    /\ (forall x, In x added <->
                  In x (looked_up_extensions ++ map fst fixed_defaults)).
Proof.
  intros Hknown. unfold declare_fixed.
  change (PySet.of_list looked_up_extensions) with looked_up_extensions.
  change (Dict.of_list fixed_defaults) with fixed_defaults.
  replace (Dict.of_list override_parts) with override_parts by reflexivity.
  rewrite looked_up_loop.
  2:{ intros ext Hin. apply Hknown.
      eapply Permutation_in; [apply iter_order_perm | exact Hin]. }
  cbn [rbind]. rewrite fixed_loop.
  eexists. eexists. split; [reflexivity|]. split.
  - rewrite !children_fold_append. cbn [children E app].
    rewrite map_app, map_map, app_assoc. reflexivity.
  - intros x. rewrite fold_add_in, in_app_iff.
    split; (intros [H|H]; [now left | right]);
      (eapply Permutation_in; [|exact H]);
      [|symmetry]; apply Permutation_map, DictFacts.iteritems_perm.
Qed.

Lemma declare_resources_children fnames types added :
  exists entries,
    children (fst (declare_resources fnames (types, added)))
    = children types ++ map default_of entries.
Proof.
  destruct (images_loop fnames types added) as (entries & added' & Heq & _).
  exists entries. rewrite Heq. cbn [fst]. apply children_fold_append.
Qed.

Lemma declare_resources_cons f fnames types added :
  declare_resources (f :: fnames) (types, added)
  = declare_resources fnames
      (if PySet.mem (extension_of f) added then (types, added)
       else match guess_type ("a." +s extension_of f) with
            | Some (String _ _ as mt) =>
                (append types (E_Default (extension_of f) mt),
                 PySet.add added (extension_of f))
            | _ => (types, PySet.add added (extension_of f))
            end).
Proof. reflexivity. Qed.

(** The loop over the resources never drops a declaration. *)
Lemma declare_resources_grow fnames : forall types added e,
  In e (children types) ->
  In e (children (fst (declare_resources fnames (types, added)))).
Proof.
  intros types added e Hin.
  destruct (declare_resources_children fnames types added) as [entries ->].
  apply in_or_app. now left.
Qed.

(** A resource with a new extension of a known type gets its declaration. *)
Lemma declare_resources_complete fnames : forall types added fname mt,
  In fname fnames ->
  ~ In (extension_of fname) added ->
  guess_type ("a." +s extension_of fname) = Some mt ->
  mt <> "" ->
  In (default_of (extension_of fname, mt))
     (children (fst (declare_resources fnames (types, added)))).
Proof.
  induction fnames as [|f fnames IH]; intros types added fname mt Hin Hnew Hg Hmt;
    [contradiction|].
  rewrite declare_resources_cons.
  assert (Hhere : extension_of f = extension_of fname ->
            In (default_of (extension_of fname, mt))
               (children (fst (declare_resources fnames
                  (if PySet.mem (extension_of f) added then (types, added)
                   else match guess_type ("a." +s extension_of f) with
                        | Some (String _ _ as mt) =>
                            (append types (E_Default (extension_of f) mt),
                             PySet.add added (extension_of f))
                        | _ => (types, PySet.add added (extension_of f))
                        end))))).
  { intros E. rewrite E.
    replace (PySet.mem (extension_of fname) added) with false
      by (symmetry; now apply pyset_mem_false).
    rewrite Hg. destruct mt as [|c mt]; [contradiction|].
    apply declare_resources_grow. rewrite children_append.
    apply in_or_app. right. now left. }
  destruct Hin as [->|Hin]; [now apply Hhere|].
  destruct (string_dec (extension_of f) (extension_of fname)) as [E|Hne];
    [now apply Hhere|].
  destruct (PySet.mem (extension_of f) added).
  - now apply IH.
  - assert (Hnew' : ~ In (extension_of fname) (PySet.add added (extension_of f))).
    { rewrite pyset_add_in. intros [H|H]; [now apply Hnew | congruence]. }
    destruct (guess_type ("a." +s extension_of f)) as [[|c s]|]; now apply IH.
Qed.

Lemma in_default_entries root en :
  In (default_of en) (children root) ->
  In (Some (fst en), Some (snd en)) (default_entries root).
Proof.
  intros Hin. unfold default_entries, find_all.
  destruct (default_of_view en) as (Ht & He & Hc).
  rewrite <- He, <- Hc.
  apply (in_map (fun c => (get_attr c "Extension", get_attr c "ContentType"))).
  apply filter_In. split; [exact Hin | now apply String.eqb_eq].
Qed.

(** X9. Whatever the resources, the manifest starts with one [Override]
    element for each of the eleven fixed parts, with the part's name and
    type, and every element after them is a [Default]. *)
Theorem contenttypes_overrides (fnames : list string) :
  fixed_types_known ->
  exists root defaults,
    contenttypes_root fnames = Ok root
    /\ children root
       = map override_of (Dict.iteritems override_parts)
         ++ map default_of defaults
    /\ Permutation (override_entries root)
                   (map (fun pm => (Some (fst pm), Some (snd pm))) override_parts).
Proof.
  intros Hknown.
  destruct (declare_fixed_children Hknown) as (types & added & Hfix & Hch & _).
  destruct (declare_resources_children fnames types added) as [entries Hres].
  unfold contenttypes_root. rewrite Hfix. cbn [rbind].
  eexists. eexists. split; [reflexivity|].
  assert (Hroot : children (fst (declare_resources fnames (types, added)))
                  = map override_of (Dict.iteritems override_parts)
                    ++ map default_of
                         ((map (fun ext => (ext, type_of_ext ext))
                               (iter_order looked_up_extensions)
                           ++ Dict.iteritems fixed_defaults) ++ entries)).
  { rewrite Hres, Hch, <- app_assoc, <- map_app. reflexivity. }
  split; [exact Hroot|].
  unfold override_entries, find_all. rewrite Hroot, filter_app.
  rewrite (filter_map_all _ override_of)
    by (intros pm; apply String.eqb_eq, override_of_view).
  rewrite (filter_map_none _ default_of) by apply default_not_override.
  rewrite app_nil_r, map_map.
  erewrite map_ext.
  - apply Permutation_map, DictFacts.iteritems_perm.
  - intros pm. destruct (override_of_view pm) as (_ & -> & ->). reflexivity.
Qed.

(** X10. A resource whose extension has a known, non-empty type is
    declared with that type, unless its extension is one of the two with a
    hard-coded type. *)
Theorem known_resource_declared (fnames : list string) (fname mt : string) :
  fixed_types_known ->
  In fname fnames ->
  guess_type ("a." +s extension_of fname) = Some mt ->
  mt <> "" ->
  ~ In (extension_of fname) (map fst fixed_defaults) ->
  exists root,
    contenttypes_root fnames = Ok root
    /\ In (Some (extension_of fname), Some mt) (default_entries root).
Proof.
  intros Hknown Hin Hg Hmt Hhard.
  destruct (declare_fixed_children Hknown) as (types & added & Hfix & Hch & Hadded).
  unfold contenttypes_root. rewrite Hfix. cbn [rbind].
  eexists. split; [reflexivity|].
  apply (in_default_entries _ (extension_of fname, mt)).
  destruct (in_dec string_dec (extension_of fname) looked_up_extensions)
    as [Hsix|Hnot].
  - apply declare_resources_grow. rewrite Hch.
    apply in_or_app. right. apply in_map.
    apply in_or_app. left.
    replace mt with (type_of_ext (extension_of fname))
      by (unfold type_of_ext; now rewrite Hg).
    apply (in_map (fun ext => (ext, type_of_ext ext))).
    eapply Permutation_in; [symmetry; apply iter_order_perm | exact Hsix].
  - apply declare_resources_complete; trivial.
    rewrite Hadded, in_app_iff. tauto.
Qed.

End ManifestMore.

(** Witness of X9. *)
Lemma contenttypes_overrides_witness :
  @fixed_types_known env_fifo
  /\ exists root,
       @contenttypes_root env_fifo ["word/media/cover.png"; "README"] = Ok root
       /\ List.length (@override_entries env_fifo root) = 11.
Proof.
  split; [exact ref_types_known|].
  destruct (@contenttypes_overrides env_fifo ["word/media/cover.png"; "README"]
              ref_types_known) as (root & defaults & Hroot & _ & Hperm).
  exists root. split; [exact Hroot|].
  rewrite (Permutation_length Hperm). reflexivity.
Defined.

(** Witness of X10: a TIFF image among other resources. *)
Lemma known_resource_declared_witness :
  @fixed_types_known tiff_env
  /\ exists root,
       @contenttypes_root tiff_env ["cover.png"; "scan.tiff"; "README"] = Ok root
       /\ In (Some "tiff", Some "image/tiff") (@default_entries tiff_env root).
Proof.
  assert (Hk : @fixed_types_known tiff_env).
  { intros ext Hin. simpl in Hin.
    destruct Hin as [<-|[<-|[<-|[<-|[<-|[<-|[]]]]]]]; discriminate. }
  split; [exact Hk|].
  refine (@known_resource_declared tiff_env ["cover.png"; "scan.tiff"; "README"]
            "scan.tiff" "image/tiff" Hk _ eq_refl _ _).
  - simpl. tauto.
  - discriminate.
  - simpl. intuition discriminate.
Defined.

(** ** When [write] does not finish *)

Section WriteMore.
Context `{Ext : Externals}.

(** The loop over the images stops at the first accessor that raises. *)
Lemma images_loop_raises (pre post : list (string * getter)) f e : forall w,
  Forall (fun item => exists data, snd item = Ok data) pre ->
  for_each (pre ++ (f, Raise e) :: post)
    (fun item => bind (call_getter (fst item) (snd item))
                      (fun data => writestr (fst item) data)) w
  = (Raise e,
     {| self := self w;
        zf := zf w ++ map (fun item => (fst item, getter_data (snd item))) pre;
        called := called w ++ map fst pre ++ [f] |}).
Proof.
  induction pre as [|[fname g] pre IH]; intros w Hall.
  - cbn [app for_each map]. unfold bind, call_getter. cbn [fst snd].
    now rewrite app_nil_r.
  - inversion Hall as [|? ? [data Hdata] Hall']; subst.
    simpl in Hdata. subst g.
    cbn [app for_each]. unfold bind at 1.
    unfold bind at 1, call_getter, writestr. cbn [fst snd self zf called].
    rewrite IH by exact Hall'. cbn [self zf called map fst snd getter_data].
    now rewrite <- !app_assoc.
Qed.

Lemma contenttypes_no_images w :
  fixed_types_known ->
  images (self w) = None ->
  contenttypes w = (Raise (AttributeError "images"), w).
Proof.
  intros Hknown Himgs.
  destruct (declare_fixed_children Hknown) as (types & added & Hfix & _).
  unfold contenttypes, bind, lift, getattr. now rewrite Hfix, Himgs.
Qed.

Ltac run_head :=
  unfold run_write, write;
  unfold bind at 1; unfold bind at 1;
  erewrite contenttypes_run by (cbn [self]; eassumption);
  unfold writestr at 1; cbn [self zf called];
  unfold bind at 1; unfold writestr at 1; cbn [self zf called];
  unfold bind at 1; unfold bind at 1;
  rewrite convert_metadata_ok;
  unfold writestr at 1; cbn [self zf called set_mi snd];
  unfold bind at 1; unfold bind at 1;
  erewrite appproperties_ok by reflexivity;
  unfold writestr at 1; cbn [self zf called app];
  unfold bind at 1; unfold writestr at 1; cbn [self zf called].

Ltac run_attr H :=
  unfold bind at 1; unfold bind at 1; unfold getattr at 1;
  cbn [self document styles images]; rewrite H;
  try (unfold writestr at 1; cbn [self zf called]).

Ltac run_field :=
  unfold bind at 1; unfold bind at 1; unfold get_self at 1;
  cbn [self font_table document_relationships embedded_fonts fonts];
  unfold writestr at 1; cbn [self zf called].

(** X12. When the accessor of an image raises, [write] raises the same
    exception: the fixed entries and the images enumerated before it are in
    the archive, the accessors called are those up to and including the
    failing one, and neither the later images nor the fonts are written. *)
Theorem write_accessor_raises (d : DOCX) (now : datetime) (oeb : OEBBook)
    (imgs : Dict.dict string getter) (doc sty types : element)
    (pre post : list (string * getter)) (f : string) (e : exn) :
  images d = Some imgs ->
  document d = Some doc ->
  styles d = Some sty ->
  contenttypes_root (Dict.iterkeys imgs) = Ok types ->
  Dict.iteritems imgs = pre ++ (f, Raise e) :: post ->
  Forall (fun item => exists data, snd item = Ok data) pre ->
  exists w',
    run_write d now oeb = (Raise e, w')
    /\ zf w' = leading_parts now oeb types ++ word_parts d doc sty
               ++ map (fun item => (fst item, getter_data (snd item))) pre
    /\ called w' = map fst pre ++ [f].
Proof.
  intros Himgs Hdoc Hsty Htypes Hitems Hpre.
  run_head.
  run_attr Hdoc. run_attr Hsty.
  run_field. run_field. run_field.
  run_attr Himgs. rewrite Hitems.
  rewrite images_loop_raises by exact Hpre. cbn [self zf called].
  eexists. split; [reflexivity|]. cbn [zf called].
  split; [|reflexivity].
  unfold leading_parts, word_parts. rewrite <- !app_assoc. reflexivity.
Qed.

(** X13. When the body builder has not assigned [images], [write] raises
    [AttributeError] before anything is written; when [document] is
    missing it raises after the first five entries, and when [styles] is
    missing after the sixth; in both cases no accessor was called and the
    record of the book is already stored in [mi]. *)
Theorem write_missing_attribute (d : DOCX) (now : datetime) (oeb : OEBBook) :
  fixed_types_known ->
  (images d = None ->
   run_write d now oeb
   = (Raise (AttributeError "images"), {| self := d; zf := []; called := [] |}))
  /\ (forall imgs, images d = Some imgs -> document d = None ->
        exists types w',
          contenttypes_root (Dict.iterkeys imgs) = Ok types
          /\ run_write d now oeb = (Raise (AttributeError "document"), w')
          /\ zf w' = leading_parts now oeb types
                     ++ [("word/webSettings.xml", websettings)]
          /\ called w' = []
          /\ mi (self w') = Some (to_book_metadata oeb))
  /\ (forall imgs doc, images d = Some imgs -> document d = Some doc ->
        styles d = None ->
        exists types w',
          contenttypes_root (Dict.iterkeys imgs) = Ok types
          /\ run_write d now oeb = (Raise (AttributeError "styles"), w')
          /\ zf w' = leading_parts now oeb types
                     ++ [("word/webSettings.xml", websettings);
                         ("word/document.xml", xml2str doc)]
          /\ called w' = []
          /\ mi (self w') = Some (to_book_metadata oeb)).
Proof.
  intros Hknown. split; [|split].
  - intros Himgs. unfold run_write, write.
    unfold bind at 1. unfold bind at 1.
    now rewrite contenttypes_no_images.
  - intros imgs Himgs Hdoc.
    destruct (contenttypes_root_defaults (Dict.iterkeys imgs) Hknown)
      as (types & _ & Htypes & _).
    exists types.
    run_head. run_attr Hdoc.
    eexists. split; [exact Htypes|]. split; [reflexivity|].
    cbn [zf called self mi]. repeat split.
  - intros imgs doc Himgs Hdoc Hsty.
    destruct (contenttypes_root_defaults (Dict.iterkeys imgs) Hknown)
      as (types & _ & Htypes & _).
    exists types.
    run_head. run_attr Hdoc. run_attr Hsty.
    eexists. split; [exact Htypes|]. split; [reflexivity|].
    cbn [zf called self mi]. repeat split.
Qed.

End WriteMore.

(** Witness of X12: the second of three accessors raises. *)
Lemma write_accessor_raises_witness :
  Dict.iteritems (H0 := @images_order env_fifo)
    [ ("a.png", Ok "A"); ("b.png", Raise (ResourceError "b.png"));
      ("c.png", Ok "C") ]
  = [("a.png", Ok "A")] ++ ("b.png", Raise (ResourceError "b.png"))
                        :: [("c.png", Ok "C")]
  /\ called (snd (@run_write env_fifo failing_docx noon_sharp sample_record))
     = ["a.png"; "b.png"].
Proof.
  split; [reflexivity|].
  assert (Htypes : exists types,
             @contenttypes_root env_fifo ["a.png"; "b.png"; "c.png"] = Ok types).
  { eexists. vm_compute. reflexivity. }
  destruct Htypes as [types Htypes].
  destruct (@write_accessor_raises env_fifo failing_docx noon_sharp sample_record
              [ ("a.png", Ok "A"); ("b.png", Raise (ResourceError "b.png"));
                ("c.png", Ok "C") ]
              (Element "document" [] None []) (Element "styles" [] None [])
              types [("a.png", Ok "A")] [("c.png", Ok "C")] "b.png"
              (ResourceError "b.png")
              eq_refl eq_refl eq_refl Htypes eq_refl)
    as (w' & Hrun & _ & Hcalled).
  { repeat constructor. simpl. now eexists. }
  rewrite Hrun. exact Hcalled.
Defined.

(** Witness of X13: a fresh assembler. *)
Lemma write_missing_attribute_witness :
  @fixed_types_known env_fifo
  /\ images (@DOCX_init env_fifo) = None
  /\ fst (@run_write env_fifo (@DOCX_init env_fifo) noon_sharp sample_record)
     = Raise (AttributeError "images").
Proof.
  split; [exact ref_types_known|]. split; [reflexivity|].
  rewrite (proj1 (@write_missing_attribute env_fifo (@DOCX_init env_fifo)
                    noon_sharp sample_record ref_types_known) eq_refl).
  reflexivity.
Defined.

